(** * k8nnon: the Domain reconciler (controllers/domain_controller.go)

    A shallow embedding of [DomainReconciler.Reconcile] and of the helpers it
    calls.  Go values are Rocq values: structs are records, a nilable pointer
    is an [option], the [error] interface is [option Err] ([None] is [nil]),
    [time.Duration] is a number of nanoseconds in [Z].  The API server the
    client talks to is an explicit cluster state (two finite maps keyed by
    namespace and name) that every client call reads or updates, and every
    call that leaves the process (client calls and DNS probes) is recorded, in
    order, in the list of calls a pass returns. *)

From stdpp Require Import base option list strings gmap.
From Stdlib Require Import ZArith.

Local Open Scope Z_scope.
Local Open Scope string_scope.

(** ** Kubernetes API errors (k8s.io/apimachinery/pkg/api/errors) *)

Module errors.

Inductive StatusReason :=
  | StatusReasonUnknown
  | StatusReasonNotFound
  | StatusReasonAlreadyExists
  | StatusReasonConflict
  | StatusReasonTimeout
  | StatusReasonInternalError.

(** A non-nil Go error: the reason an API status carries (plain Go errors,
    such as a failed DNS lookup, have [StatusReasonUnknown]) and its text. *)
Record Err := { Reason : StatusReason; Message : string }.

Definition IsNotFound (e : Err) : bool :=
  match Reason e with StatusReasonNotFound => true | _ => false end.

Definition NewNotFound (resource name : string) : Err :=
  {| Reason := StatusReasonNotFound; Message := resource +:+ " " +:+ name +:+ " not found" |}.

Definition NewAlreadyExists (resource name : string) : Err :=
  {| Reason := StatusReasonAlreadyExists; Message := resource +:+ " " +:+ name +:+ " already exists" |}.

End errors.

Abbreviation Err := errors.Err.

(** Go's [error]: [None] is [nil]. *)
Abbreviation error := (option errors.Err).

(** ** time *)

Module time.

Definition Duration := Z.
Definition Nanosecond : Duration := 1.
Definition Microsecond : Duration := 1000 * Nanosecond.
Definition Millisecond : Duration := 1000 * Microsecond.
Definition Second : Duration := 1000 * Millisecond.
Definition Minute : Duration := 60 * Second.
Definition Hour : Duration := 60 * Minute.

End time.

(** ** k8s.io/apimachinery: object metadata *)

(** [types.NamespacedName]: the pair (Namespace, Name). *)
Abbreviation NamespacedName := (string * string)%type.

Module metav1.

Record OwnerReference := {
  APIVersion : string;
  Kind : string;
  OwnerName : string;
  OwnerUID : string;
  Controller : option bool;
  BlockOwnerDeletion : option bool
}.

Record ObjectMeta := {
  Name : string;
  Namespace : string;
  UID : string;
  DeletionTimestamp : option Z;
  OwnerReferences : list OwnerReference
}.

End metav1.

(** ** k8s.io/api/networking/v1: the parts of an Ingress the controller sets.
    Every field the controller does not mention keeps Go's zero value. *)

Module netwrkingv1.

Inductive PathType := PathTypeExact | PathTypePrefix | PathTypeImplementationSpecific.

Record ServiceBackendPort := { PortName : string; Number : Z }.

Record IngressServiceBackend := { ServiceName : string; Port : ServiceBackendPort }.

Record IngressBackend := { Service : option IngressServiceBackend }.

Record HTTPIngressPath := {
  Path : string;
  PathType_ : option PathType;
  Backend : IngressBackend
}.

Record HTTPIngressRuleValue := { Paths : list HTTPIngressPath }.

Record IngressRule := { Host : string; HTTP : option HTTPIngressRuleValue }.

Record IngressSpec := { Rules : list IngressRule }.

Record Ingress := { ObjectMeta : metav1.ObjectMeta; Spec : IngressSpec }.

End netwrkingv1.

Abbreviation Ingress := netwrkingv1.Ingress.

(** ** api/v1alpha1: the Domain resource *)

Module corev1alpha1.

(** Modelled from the spec: the type declarations of package [api/v1alpha1]
    are not among the sources; these records have the fields the controller
    reads and writes ([Spec.BaseDomain], [Status.DNS.DKIN], [Status.DNS.Stats],
    [Status.DNS.SFP]) and the spec's data model names no other status field. *)
Record DNSStatus := { DKIN : bool; Stats : bool; SFP : bool }.

Record DomainStatus := { DNS : DNSStatus }.

Record DomainSpec := { BaseDomain : string }.

Record Domain := {
  ObjectMeta : metav1.ObjectMeta;
  Spec : DomainSpec;
  Status : DomainStatus
}.

End corev1alpha1.

Abbreviation Domain := corev1alpha1.Domain.
Abbreviation DNSStatus := corev1alpha1.DNSStatus.

(** Go's zero values, what [&T{}] and [T{}] denote. *)
Definition zeroObjectMeta : metav1.ObjectMeta :=
  {| metav1.Name := ""; metav1.Namespace := ""; metav1.UID := "";
     metav1.DeletionTimestamp := None; metav1.OwnerReferences := [] |}.

Definition zeroDNSStatus : DNSStatus :=
  {| corev1alpha1.DKIN := false; corev1alpha1.Stats := false; corev1alpha1.SFP := false |}.

Definition zeroDomain : Domain :=
  {| corev1alpha1.ObjectMeta := zeroObjectMeta;
     corev1alpha1.Spec := {| corev1alpha1.BaseDomain := "" |};
     corev1alpha1.Status := {| corev1alpha1.DNS := zeroDNSStatus |} |}.

Definition zeroIngress : Ingress :=
  {| netwrkingv1.ObjectMeta := zeroObjectMeta;
     netwrkingv1.Spec := {| netwrkingv1.Rules := [] |} |}.

(** [domain.Name], [domain.Namespace]: fields promoted from the embedded
    [ObjectMeta]. *)
Definition DomainName (d : Domain) : string := metav1.Name (corev1alpha1.ObjectMeta d).
Definition DomainNamespace (d : Domain) : string := metav1.Namespace (corev1alpha1.ObjectMeta d).
Definition DomainKey (d : Domain) : NamespacedName := (DomainNamespace d, DomainName d).

Definition IngressKey (i : Ingress) : NamespacedName :=
  (metav1.Namespace (netwrkingv1.ObjectMeta i), metav1.Name (netwrkingv1.ObjectMeta i)).

(** The assignment [domain.Status = s] on the pass's local copy. *)
Definition setStatus (d : Domain) (s : corev1alpha1.DomainStatus) : Domain :=
  {| corev1alpha1.ObjectMeta := corev1alpha1.ObjectMeta d;
     corev1alpha1.Spec := corev1alpha1.Spec d;
     corev1alpha1.Status := s |}.

(** ** controller-runtime: the scheme and controller references *)

Module runtime.

Record GroupVersionKind := { Group : string; Version : string; GVKind : string }.

(** [gvk.GroupVersion().String()] *)
Definition GroupVersionString (gvk : GroupVersionKind) : string :=
  if decide (Group gvk = "") then Version gvk else Group gvk +:+ "/" +:+ Version gvk.

(** A [runtime.Scheme] as far as this controller consults it: the kind it has
    registered for the Go type [Domain], if any. *)
Record Scheme := { DomainKind : option GroupVersionKind }.

End runtime.

Module ctrl.

(** [ctrl.Result]; [Result{}] is [zeroResult]. *)
Record Result := { Requeue : bool; RequeueAfter : time.Duration }.

Definition zeroResult : Result := {| Requeue := false; RequeueAfter := 0 |}.

(** [ctrl.Request] *)
Record Request := { ReqNamespacedName : NamespacedName }.

Definition errNoKind : Err :=
  {| errors.Reason := errors.StatusReasonUnknown;
     errors.Message := "no kind is registered for the type v1alpha1.Domain" |}.

Definition errClusterScoped : Err :=
  {| errors.Reason := errors.StatusReasonUnknown;
     errors.Message := "cluster-scoped resource must not have a namespace-scoped owner" |}.

Definition errCrossNamespace : Err :=
  {| errors.Reason := errors.StatusReasonUnknown;
     errors.Message := "cross-namespace owner references are disallowed" |}.

Definition errAlreadyOwned : Err :=
  {| errors.Reason := errors.StatusReasonUnknown;
     errors.Message := "Object is already owned by another controller" |}.

Definition validateOwner (owner : Domain) (object : metav1.ObjectMeta) : error :=
  let ownerNs := DomainNamespace owner in
  if decide (ownerNs = "") then None
  else
    let objNs := metav1.Namespace object in
    if decide (objNs = "") then Some errClusterScoped
    else if decide (ownerNs = objNs) then None
    else Some errCrossNamespace.

Definition referSameObject (a b : metav1.OwnerReference) : bool :=
  bool_decide (metav1.APIVersion a = metav1.APIVersion b)
  && bool_decide (metav1.Kind a = metav1.Kind b)
  && bool_decide (metav1.OwnerName a = metav1.OwnerName b).

Definition isController (o : metav1.OwnerReference) : bool :=
  match metav1.Controller o with Some true => true | _ => false end.

Definition validateControllerRef (ref : metav1.OwnerReference) (object : metav1.ObjectMeta) : error :=
  match List.find isController (metav1.OwnerReferences object) with
  | Some existing => if referSameObject existing ref then None else Some errAlreadyOwned
  | None => None
  end.

Fixpoint upsertOwnerRef (ref : metav1.OwnerReference) (owners : list metav1.OwnerReference)
  : list metav1.OwnerReference :=
  match owners with
  | [] => [ref]
  | o :: rest => if referSameObject o ref then ref :: rest else o :: upsertOwnerRef ref rest
  end.

(** [ctrl.SetControllerReference(owner, controlled, scheme)], the library
    function, for a Domain owner and an Ingress: it returns the Ingress as the
    call leaves it and the error.  (The library compares owner references by
    API group, kind and name; here the whole API version is compared, which
    is the same on the empty list the controller passes.) *)
Definition SetControllerReference (owner : Domain) (controlled : Ingress) (scheme : runtime.Scheme)
  : Ingress * error :=
  let meta := netwrkingv1.ObjectMeta controlled in
  match validateOwner owner meta with
  | Some e => (controlled, Some e)
  | None =>
    match runtime.DomainKind scheme with
    | None => (controlled, Some errNoKind)
    | Some gvk =>
      let ref :=
        {| metav1.APIVersion := runtime.GroupVersionString gvk;
           metav1.Kind := runtime.GVKind gvk;
           metav1.OwnerName := DomainName owner;
           metav1.OwnerUID := metav1.UID (corev1alpha1.ObjectMeta owner);
           metav1.Controller := Some true;
           metav1.BlockOwnerDeletion := Some true |} in
      match validateControllerRef ref meta with
      | Some e => (controlled, Some e)
      | None =>
        ({| netwrkingv1.ObjectMeta :=
              {| metav1.Name := metav1.Name meta;
                 metav1.Namespace := metav1.Namespace meta;
                 metav1.UID := metav1.UID meta;
                 metav1.DeletionTimestamp := metav1.DeletionTimestamp meta;
                 metav1.OwnerReferences := upsertOwnerRef ref (metav1.OwnerReferences meta) |};
            netwrkingv1.Spec := netwrkingv1.Spec controlled |}, None)
      end
    end
  end.

End ctrl.

(** ** The cluster and the client *)

(** What the API server stores, as far as one pass can read or change it. *)
Record Cluster := {
  domains : gmap NamespacedName Domain;
  ingresses : gmap NamespacedName Ingress
}.

(** Every call a pass makes outside the process, with its argument. *)
Inductive Call :=
  | CallGetDomain (key : NamespacedName)
  | CallCheckDomainDKim (d : Domain)
  | CallCheckDomainStatsDNS (d : Domain)
  | CallCheckDomainSPF (d : Domain)
  | CallGetIngress (key : NamespacedName)
  | CallCreate (ing : Ingress)
  | CallDelete (ing : Ingress)
  | CallStatusUpdate (d : Domain).

(** A computation of the pass: from the cluster as it is to a result, the
    cluster as the computation leaves it, and the calls made, in order. *)
Definition M (A : Type) : Type := Cluster → A * Cluster * list Call.

Definition ret {A} (a : A) : M A := λ c, (a, c, []).

Definition bind {A B} (m : M A) (k : A → M B) : M B :=
  λ c, let '(a, c1, l1) := m c in
       let '(b, c2, l2) := k a c1 in
       (b, c2, (l1 ++ l2)%list).

Notation "'let*' x ':=' m 'in' k" := (bind m (λ x, k))
  (at level 10, x name, m at level 100, k at level 200, only parsing).
Notation "'let*' ' pat ':=' m 'in' k" := (bind m (λ x, match x with pat => k end))
  (at level 10, pat pattern, m at level 100, k at level 200, only parsing).

Module client.

(** The client a reconciler holds: every method answers from the cluster
    unless the client is set to fail that method with a given error (a
    conflict, a timeout, an object that went away between two calls). *)
Record Client := {
  GetDomainErr : error;
  GetIngressErr : error;
  CreateErr : error;
  DeleteErr : error;
  StatusUpdateErr : error
}.

(** [client.IgnoreNotFound] *)
Definition IgnoreNotFound (err : error) : error :=
  match err with
  | Some e => if errors.IsNotFound e then None else Some e
  | None => None
  end.

(** [r.Get(ctx, key, &Domain{})]: the object read (the zero value on error)
    and the error. *)
Definition GetDomain (cl : Client) (key : NamespacedName) : M (Domain * error) :=
  λ c, match GetDomainErr cl with
       | Some e => ((zeroDomain, Some e), c, [CallGetDomain key])
       | None =>
         match domains c !! key with
         | Some d => ((d, None), c, [CallGetDomain key])
         | None => ((zeroDomain, Some (errors.NewNotFound "domains" key.2)), c, [CallGetDomain key])
         end
       end.

(** [r.Get(ctx, key, &Ingress{})] *)
Definition GetIngress (cl : Client) (key : NamespacedName) : M (Ingress * error) :=
  λ c, match GetIngressErr cl with
       | Some e => ((zeroIngress, Some e), c, [CallGetIngress key])
       | None =>
         match ingresses c !! key with
         | Some i => ((i, None), c, [CallGetIngress key])
         | None => ((zeroIngress, Some (errors.NewNotFound "ingresses" key.2)), c, [CallGetIngress key])
         end
       end.

(** [r.Create(ctx, ingress)] *)
Definition Create (cl : Client) (ing : Ingress) : M error :=
  λ c, match CreateErr cl with
       | Some e => (Some e, c, [CallCreate ing])
       | None =>
         match ingresses c !! IngressKey ing with
         | Some _ => (Some (errors.NewAlreadyExists "ingresses" (IngressKey ing).2), c, [CallCreate ing])
         | None =>
           (None, {| domains := domains c; ingresses := <[IngressKey ing := ing]> (ingresses c) |},
            [CallCreate ing])
         end
       end.

(** [r.Delete(ctx, ingress)] *)
Definition Delete (cl : Client) (ing : Ingress) : M error :=
  λ c, match DeleteErr cl with
       | Some e => (Some e, c, [CallDelete ing])
       | None =>
         match ingresses c !! IngressKey ing with
         | None => (Some (errors.NewNotFound "ingresses" (IngressKey ing).2), c, [CallDelete ing])
         | Some _ =>
           (None, {| domains := domains c; ingresses := delete (IngressKey ing) (ingresses c) |},
            [CallDelete ing])
         end
       end.

(** [r.Status().Update(ctx, domain)]: the stored Domain takes the status of
    the object passed. *)
Definition StatusUpdate (cl : Client) (d : Domain) : M error :=
  λ c, match StatusUpdateErr cl with
       | Some e => (Some e, c, [CallStatusUpdate d])
       | None =>
         match domains c !! DomainKey d with
         | None => (Some (errors.NewNotFound "domains" (DomainName d)), c, [CallStatusUpdate d])
         | Some stored =>
           (None,
            {| domains := <[DomainKey d := setStatus stored (corev1alpha1.Status d)]> (domains c);
               ingresses := ingresses c |},
            [CallStatusUpdate d])
         end
       end.

End client.

(** ** internal/dns/checker *)

Module checker.

(** Modelled from the spec: the interface [checker.DNSChecker] of package
    [internal/dns/checker] is not among the sources; per the spec's probe
    contract each method is a side-effect-free lookup for a Domain that
    returns a flag and an error. *)
Record DNSChecker := {
  CheckDomainDKim : Domain → bool * error;
  CheckDomainStatsDNS : Domain → bool * error;
  CheckDomainSPF : Domain → bool * error
}.

End checker.

(** A probe call: the checker's answer, the cluster untouched, the call
    recorded. *)
Definition probe (call : Domain → Call) (f : Domain → bool * error) (d : Domain)
  : M (bool * error) :=
  λ c, (f d, c, [call d]).

(** ** The reconciler *)

Record DomainReconciler := {
  Client : client.Client;
  Scheme : runtime.Scheme;
  DNSChecker : checker.DNSChecker
}.

Definition statsIngressName (domain : Domain) : string :=
  DomainName domain +:+ "-stats".

Definition computeReconcileInterval (domain : Domain) : time.Duration :=
  let dns := corev1alpha1.DNS (corev1alpha1.Status domain) in
  if corev1alpha1.Stats dns && corev1alpha1.SFP dns && corev1alpha1.DKIN dns
  then 1 * time.Hour
  else 1 * time.Minute.

Definition buildDesiredIngress (r : DomainReconciler) (domain : Domain) : Ingress * error :=
  let pathPrefix := netwrkingv1.PathTypePrefix in
  let name := statsIngressName domain in
  let ing :=
    {| netwrkingv1.ObjectMeta :=
         {| metav1.Name := name;
            metav1.Namespace := DomainNamespace domain;
            metav1.UID := "";
            metav1.DeletionTimestamp := None;
            metav1.OwnerReferences := [] |};
       netwrkingv1.Spec :=
         {| netwrkingv1.Rules :=
              [ {| netwrkingv1.Host := corev1alpha1.BaseDomain (corev1alpha1.Spec domain);
                   netwrkingv1.HTTP :=
                     Some {| netwrkingv1.Paths :=
                               [ {| netwrkingv1.Path := "/";
                                    netwrkingv1.PathType_ := Some pathPrefix;
                                    netwrkingv1.Backend :=
                                      {| netwrkingv1.Service :=
                                           Some {| netwrkingv1.ServiceName := "k8nnon";
                                                   netwrkingv1.Port :=
                                                     {| netwrkingv1.PortName := "";
                                                        netwrkingv1.Number := 80 |} |} |} |} ] |} |} ] |} |} in
  match ctrl.SetControllerReference domain ing (Scheme r) with
  | (ing, Some err) => (ing, Some err)
  | (ing, None) => (ing, None)
  end.

Definition checkDomainDNS (r : DomainReconciler) (domain : Domain) : M (DNSStatus * error) :=
  let* '(dkin, err) := probe CallCheckDomainDKim (checker.CheckDomainDKim (DNSChecker r)) domain in
  match err with
  | Some _ => ret (zeroDNSStatus, err)
  | None =>
    let* '(stats, err) := probe CallCheckDomainStatsDNS (checker.CheckDomainStatsDNS (DNSChecker r)) domain in
    match err with
    | Some _ => ret (zeroDNSStatus, err)
    | None =>
      let* '(sfp, err) := probe CallCheckDomainSPF (checker.CheckDomainSPF (DNSChecker r)) domain in
      match err with
      | Some _ => ret (zeroDNSStatus, err)
      | None =>
        ret ({| corev1alpha1.DKIN := dkin; corev1alpha1.Stats := stats; corev1alpha1.SFP := sfp |}, None)
      end
    end
  end.

Definition handleFoundIngress (r : DomainReconciler) (ingress : Ingress) (domain : Domain) : M error :=
  if corev1alpha1.Stats (corev1alpha1.DNS (corev1alpha1.Status domain)) then ret None
  else
    match metav1.DeletionTimestamp (netwrkingv1.ObjectMeta ingress) with
    | None => client.Delete (Client r) ingress
    | Some _ => ret None
    end.

Definition reconcileIngress (r : DomainReconciler) (domain : Domain) : M error :=
  let name := statsIngressName domain in
  let* '(ingress, err) := client.GetIngress (Client r) (DomainNamespace domain, name) in
  match err with
  | None => handleFoundIngress r ingress domain
  | Some e =>
    if negb (errors.IsNotFound e) then ret err
    else if negb (corev1alpha1.Stats (corev1alpha1.DNS (corev1alpha1.Status domain))) then ret None
    else
      match buildDesiredIngress r domain with
      | (_, Some err) => ret (Some err)
      | (ingress, None) => client.Create (Client r) ingress
      end
  end.

Definition Reconcile (r : DomainReconciler) (req : ctrl.Request) : M (ctrl.Result * error) :=
  let* '(domain, err) := client.GetDomain (Client r) (ctrl.ReqNamespacedName req) in
  match err with
  | Some _ => ret (ctrl.zeroResult, client.IgnoreNotFound err)
  | None =>
    let* '(dnsStatus, err) := checkDomainDNS r domain in
    match err with
    | Some _ => ret ({| ctrl.Requeue := false; ctrl.RequeueAfter := 1 * time.Minute |}, err)
    | None =>
      let domain := setStatus domain {| corev1alpha1.DNS := dnsStatus |} in
      let* err := reconcileIngress r domain in
      match err with
      | Some _ => ret (ctrl.zeroResult, err)
      | None =>
        let* err := client.StatusUpdate (Client r) domain in
        match err with
        | Some _ => ret (ctrl.zeroResult, err)
        | None =>
          ret ({| ctrl.Requeue := false; ctrl.RequeueAfter := computeReconcileInterval domain |}, None)
        end
      end
    end
  end.

(** ** Concrete objects: the spec's scenario (Domain [acme], base domain
    [mail.acme.com]) *)

Module Scenario.

Definition acme : Domain :=
  {| corev1alpha1.ObjectMeta :=
       {| metav1.Name := "acme"; metav1.Namespace := "default"; metav1.UID := "uid-acme";
          metav1.DeletionTimestamp := None; metav1.OwnerReferences := [] |};
     corev1alpha1.Spec := {| corev1alpha1.BaseDomain := "mail.acme.com" |};
     corev1alpha1.Status := {| corev1alpha1.DNS := zeroDNSStatus |} |}.

Definition req : ctrl.Request := {| ctrl.ReqNamespacedName := ("default", "acme") |}.

Definition scheme : runtime.Scheme :=
  {| runtime.DomainKind :=
       Some {| runtime.Group := "core.k8s.kannon.email"; runtime.Version := "v1alpha1";
               runtime.GVKind := "Domain" |} |}.

(** A client that fails nothing. *)
Definition plainClient : client.Client :=
  {| client.GetDomainErr := None; client.GetIngressErr := None; client.CreateErr := None;
     client.DeleteErr := None; client.StatusUpdateErr := None |}.

(** A checker whose three lookups succeed with the given flags. *)
Definition answers (dkim stats spf : bool) : checker.DNSChecker :=
  {| checker.CheckDomainDKim := λ _, (dkim, None);
     checker.CheckDomainStatsDNS := λ _, (stats, None);
     checker.CheckDomainSPF := λ _, (spf, None) |}.

Definition reconciler (cl : client.Client) (ch : checker.DNSChecker) : DomainReconciler :=
  {| Client := cl; Scheme := scheme; DNSChecker := ch |}.

(** The cluster holding the Domain and no Ingress. *)
Definition fresh : Cluster := {| domains := {[ ("default", "acme") := acme ]}; ingresses := ∅ |}.

(** The stats Ingress of [acme] as the controller builds it. *)
Definition acmeStats : Ingress := (buildDesiredIngress (reconciler plainClient (answers true true true)) acme).1.

(** The same Ingress once its deletion has begun (a deletion timestamp is
    set and the object is still stored). *)
Definition acmeStatsTerminating : Ingress :=
  {| netwrkingv1.ObjectMeta :=
       {| metav1.Name := "acme-stats"; metav1.Namespace := "default"; metav1.UID := "uid-ing";
          metav1.DeletionTimestamp := Some 1700000000;
          metav1.OwnerReferences := metav1.OwnerReferences (netwrkingv1.ObjectMeta acmeStats) |};
     netwrkingv1.Spec := netwrkingv1.Spec acmeStats |}.

Definition withIngress (i : Ingress) : Cluster :=
  {| domains := {[ ("default", "acme") := acme ]}; ingresses := {[ ("default", "acme-stats") := i ]} |}.

Definition timeout : Err :=
  {| errors.Reason := errors.StatusReasonTimeout; errors.Message := "i/o timeout" |}.

Definition conflict : Err :=
  {| errors.Reason := errors.StatusReasonConflict;
     errors.Message := "the object has been modified; please apply your changes to the latest version" |}.

Definition notFound : Err := errors.NewNotFound "ingresses" "acme-stats".

(** A checker whose stats-DNS lookup fails. *)
Definition statsLookupFails : checker.DNSChecker :=
  {| checker.CheckDomainDKim := λ _, (true, None);
     checker.CheckDomainStatsDNS := λ _, (false, Some timeout);
     checker.CheckDomainSPF := λ _, (true, None) |}.

(** A checker that answers by the base domain: all true for
    [mail.acme.com], all false for any other. *)
Definition byBaseDomain : checker.DNSChecker :=
  let known (d : Domain) : bool * error :=
    (bool_decide (corev1alpha1.BaseDomain (corev1alpha1.Spec d) = "mail.acme.com"), None) in
  {| checker.CheckDomainDKim := known;
     checker.CheckDomainStatsDNS := known;
     checker.CheckDomainSPF := known |}.

(** A client whose delete reports that the object is gone. *)
Definition deleteRacesClient : client.Client :=
  {| client.GetDomainErr := None; client.GetIngressErr := None; client.CreateErr := None;
     client.DeleteErr := Some notFound; client.StatusUpdateErr := None |}.

(** A client whose status update meets a conflict. *)
Definition conflictClient : client.Client :=
  {| client.GetDomainErr := None; client.GetIngressErr := None; client.CreateErr := None;
     client.DeleteErr := None; client.StatusUpdateErr := Some conflict |}.

Definition empty : Cluster := {| domains := ∅; ingresses := ∅ |}.

Definition other : Domain :=
  {| corev1alpha1.ObjectMeta :=
       {| metav1.Name := "other"; metav1.Namespace := "default"; metav1.UID := "uid-other";
          metav1.DeletionTimestamp := None; metav1.OwnerReferences := [] |};
     corev1alpha1.Spec := {| corev1alpha1.BaseDomain := "mail.other.org" |};
     corev1alpha1.Status := {| corev1alpha1.DNS := zeroDNSStatus |} |}.

(** The cluster holding two Domains and no Ingress. *)
Definition busy : Cluster :=
  {| domains := <[ ("default", "other") := other ]> {[ ("default", "acme") := acme ]};
     ingresses := ∅ |}.

(** A client whose create reports that the object is already there. *)
Definition createRacesClient : client.Client :=
  {| client.GetDomainErr := None; client.GetIngressErr := None;
     client.CreateErr := Some (errors.NewAlreadyExists "ingresses" "acme-stats");
     client.DeleteErr := None; client.StatusUpdateErr := None |}.

(** A client whose lookup of an Ingress times out. *)
Definition lookupFailsClient : client.Client :=
  {| client.GetDomainErr := None; client.GetIngressErr := Some timeout; client.CreateErr := None;
     client.DeleteErr := None; client.StatusUpdateErr := None |}.

(** A reconciler whose scheme has no kind registered for Domain. *)
Definition unregistered (cl : client.Client) (ch : checker.DNSChecker) : DomainReconciler :=
  {| Client := cl; Scheme := {| runtime.DomainKind := None |}; DNSChecker := ch |}.

End Scenario.

(** ** Reading a pass's outcome *)

(** What a computation returned, the cluster it left and the calls it made. *)
Definition returned {A} (x : A * Cluster * list Call) : A := x.1.1.
Definition clusterAfter {A} (x : A * Cluster * list Call) : Cluster := x.1.2.
Definition callsOf {A} (x : A * Cluster * list Call) : list Call := x.2.

(** The key of the stats Ingress of a Domain, as [reconcileIngress] asks for it. *)
Definition statsIngressKey (d : Domain) : NamespacedName :=
  (DomainNamespace d, statsIngressName d).

(** The Fetch stage of a pass alone. *)
Definition fetch (r : DomainReconciler) (req : ctrl.Request) (c : Cluster) : Domain * error :=
  returned (client.GetDomain (Client r) (ctrl.ReqNamespacedName req) c).

(** The three flags the checker answers for a Domain. *)
Definition probedStatus (r : DomainReconciler) (d : Domain) : DNSStatus :=
  {| corev1alpha1.DKIN := (checker.CheckDomainDKim (DNSChecker r) d).1;
     corev1alpha1.Stats := (checker.CheckDomainStatsDNS (DNSChecker r) d).1;
     corev1alpha1.SFP := (checker.CheckDomainSPF (DNSChecker r) d).1 |}.

Definition isProbeCall (k : Call) : bool :=
  match k with
  | CallCheckDomainDKim _ | CallCheckDomainStatsDNS _ | CallCheckDomainSPF _ => true
  | _ => false
  end.

(** Calls that ask the API server to create or delete an Ingress. *)
Definition isIngressMutation (k : Call) : bool :=
  match k with
  | CallCreate _ | CallDelete _ => true
  | _ => false
  end.

Definition isStatusUpdate (k : Call) : bool :=
  match k with
  | CallStatusUpdate _ => true
  | _ => false
  end.

(** Objects are stored under their own namespace and name. *)
Definition wf_cluster (c : Cluster) : Prop :=
  map_Forall (λ k d, DomainKey d = k) (domains c)
  ∧ map_Forall (λ k i, IngressKey i = k) (ingresses c).

(** The client does not report a stored Ingress as not found: a lookup it is
    set to fail fails with another kind of error. *)
Definition faithfulReads (cl : client.Client) : Prop :=
  ∀ e, client.GetIngressErr cl = Some e → errors.IsNotFound e = false.


(** ** The stats Ingress *)

(** The stats Ingress as the spec words it: named [<domain-name>-stats] in
    the Domain's namespace, one rule from the Domain's base domain and the
    path [/] (prefix match) to the service [k8nnon] on port 80, and one owner
    reference, to the Domain, marked as the controller. *)
Definition canonicalStatsIngress (d : Domain) (gvk : runtime.GroupVersionKind) : Ingress :=
  {| netwrkingv1.ObjectMeta :=
       {| metav1.Name := DomainName d +:+ "-stats";
          metav1.Namespace := DomainNamespace d;
          metav1.UID := "";
          metav1.DeletionTimestamp := None;
          metav1.OwnerReferences :=
            [ {| metav1.APIVersion := runtime.GroupVersionString gvk;
                 metav1.Kind := runtime.GVKind gvk;
                 metav1.OwnerName := DomainName d;
                 metav1.OwnerUID := metav1.UID (corev1alpha1.ObjectMeta d);
                 metav1.Controller := Some true;
                 metav1.BlockOwnerDeletion := Some true |} ] |};
     netwrkingv1.Spec :=
       {| netwrkingv1.Rules :=
            [ {| netwrkingv1.Host := corev1alpha1.BaseDomain (corev1alpha1.Spec d);
                 netwrkingv1.HTTP :=
                   Some {| netwrkingv1.Paths :=
                             [ {| netwrkingv1.Path := "/";
                                  netwrkingv1.PathType_ := Some netwrkingv1.PathTypePrefix;
                                  netwrkingv1.Backend :=
                                    {| netwrkingv1.Service :=
                                         Some {| netwrkingv1.ServiceName := "k8nnon";
                                                 netwrkingv1.Port :=
                                                   {| netwrkingv1.PortName := "";
                                                      netwrkingv1.Number := 80 |} |} |} |} ] |} |} ] |} |}.


(** ** The stages of a pass as relations

    [reconcileIngress] and [Reconcile] are characterised once, case by case,
    by the two relations below; the theorems about a pass go by inversion on
    them. *)

(** The Domain as the pass holds it after [domain.Status = ...]. *)
Definition probed (r : DomainReconciler) (d : Domain) : Domain :=
  setStatus d {| corev1alpha1.DNS := probedStatus r d |}.

(** What the lookup of the stats Ingress of [d] returns. *)
Definition lookupStatsIngress (r : DomainReconciler) (d : Domain) (c : Cluster) : Ingress * error :=
  returned (client.GetIngress (Client r) (statsIngressKey d) c).

Definition statsFlag (d : Domain) : bool :=
  corev1alpha1.Stats (corev1alpha1.DNS (corev1alpha1.Status d)).

Inductive IngressStep (r : DomainReconciler) (d : Domain) (c : Cluster)
  : error * Cluster * list Call → Prop :=
  | LookupFailed i0 e :
      lookupStatsIngress r d c = (i0, Some e) →
      errors.IsNotFound e = false →
      IngressStep r d c (Some e, c, [CallGetIngress (statsIngressKey d)])
  | FoundKept i :
      lookupStatsIngress r d c = (i, None) →
      statsFlag d = true →
      IngressStep r d c (None, c, [CallGetIngress (statsIngressKey d)])
  | FoundTerminating i t :
      lookupStatsIngress r d c = (i, None) →
      statsFlag d = false →
      metav1.DeletionTimestamp (netwrkingv1.ObjectMeta i) = Some t →
      IngressStep r d c (None, c, [CallGetIngress (statsIngressKey d)])
  | FoundDeleted i :
      lookupStatsIngress r d c = (i, None) →
      statsFlag d = false →
      metav1.DeletionTimestamp (netwrkingv1.ObjectMeta i) = None →
      client.DeleteErr (Client r) = None →
      is_Some (ingresses c !! IngressKey i) →
      IngressStep r d c
        (None, {| domains := domains c; ingresses := delete (IngressKey i) (ingresses c) |},
         [CallGetIngress (statsIngressKey d); CallDelete i])
  | FoundDeleteFailed i e :
      lookupStatsIngress r d c = (i, None) →
      statsFlag d = false →
      metav1.DeletionTimestamp (netwrkingv1.ObjectMeta i) = None →
      returned (client.Delete (Client r) i c) = Some e →
      IngressStep r d c (Some e, c, [CallGetIngress (statsIngressKey d); CallDelete i])
  | AbsentSkipped i0 e :
      lookupStatsIngress r d c = (i0, Some e) →
      errors.IsNotFound e = true →
      statsFlag d = false →
      IngressStep r d c (None, c, [CallGetIngress (statsIngressKey d)])
  | AbsentBuildFailed i0 e ing e' :
      lookupStatsIngress r d c = (i0, Some e) →
      errors.IsNotFound e = true →
      statsFlag d = true →
      buildDesiredIngress r d = (ing, Some e') →
      IngressStep r d c (Some e', c, [CallGetIngress (statsIngressKey d)])
  | AbsentCreated i0 e ing :
      lookupStatsIngress r d c = (i0, Some e) →
      errors.IsNotFound e = true →
      statsFlag d = true →
      buildDesiredIngress r d = (ing, None) →
      client.CreateErr (Client r) = None →
      ingresses c !! IngressKey ing = None →
      IngressStep r d c
        (None, {| domains := domains c; ingresses := <[IngressKey ing := ing]> (ingresses c) |},
         [CallGetIngress (statsIngressKey d); CallCreate ing])
  | AbsentCreateFailed i0 e ing e' :
      lookupStatsIngress r d c = (i0, Some e) →
      errors.IsNotFound e = true →
      statsFlag d = true →
      buildDesiredIngress r d = (ing, None) →
      returned (client.Create (Client r) ing c) = Some e' →
      IngressStep r d c (Some e', c, [CallGetIngress (statsIngressKey d); CallCreate ing]).


(** The first probe of the sequence that returns an error, and the probe
    calls made up to it. *)
Inductive ProbeFailure (r : DomainReconciler) (d : Domain) : Err → list Call → Prop :=
  | DKimFailed b e :
      checker.CheckDomainDKim (DNSChecker r) d = (b, Some e) →
      ProbeFailure r d e [CallCheckDomainDKim d]
  | StatsDNSFailed b1 b e :
      checker.CheckDomainDKim (DNSChecker r) d = (b1, None) →
      checker.CheckDomainStatsDNS (DNSChecker r) d = (b, Some e) →
      ProbeFailure r d e [CallCheckDomainDKim d; CallCheckDomainStatsDNS d]
  | SPFFailed b1 b2 b e :
      checker.CheckDomainDKim (DNSChecker r) d = (b1, None) →
      checker.CheckDomainStatsDNS (DNSChecker r) d = (b2, None) →
      checker.CheckDomainSPF (DNSChecker r) d = (b, Some e) →
      ProbeFailure r d e
        [CallCheckDomainDKim d; CallCheckDomainStatsDNS d; CallCheckDomainSPF d].

(** All three probes answer without error. *)
Definition ProbesOk (r : DomainReconciler) (d : Domain) : Prop :=
  (checker.CheckDomainDKim (DNSChecker r) d).2 = None
  ∧ (checker.CheckDomainStatsDNS (DNSChecker r) d).2 = None
  ∧ (checker.CheckDomainSPF (DNSChecker r) d).2 = None.

Definition probeCalls (d : Domain) : list Call :=
  [CallCheckDomainDKim d; CallCheckDomainStatsDNS d; CallCheckDomainSPF d].

(** The five ways a pass ends. *)
Inductive PassOutcome (r : DomainReconciler) (req : ctrl.Request) (c : Cluster)
  : ctrl.Result * error * Cluster * list Call → Prop :=
  | PassFetchFailed d0 e :
      fetch r req c = (d0, Some e) →
      PassOutcome r req c
        ((ctrl.zeroResult, if errors.IsNotFound e then None else Some e), c,
         [CallGetDomain (ctrl.ReqNamespacedName req)])
  | PassProbeFailed d e probes :
      fetch r req c = (d, None) →
      ProbeFailure r d e probes →
      PassOutcome r req c
        (({| ctrl.Requeue := false; ctrl.RequeueAfter := 60000000000 |}, Some e), c,
         CallGetDomain (ctrl.ReqNamespacedName req) :: probes)
  | PassIngressFailed d e c1 l1 :
      fetch r req c = (d, None) →
      ProbesOk r d →
      IngressStep r (probed r d) c (Some e, c1, l1) →
      PassOutcome r req c
        ((ctrl.zeroResult, Some e), c1,
         CallGetDomain (ctrl.ReqNamespacedName req) :: (probeCalls d ++ l1)%list)
  | PassUpdateFailed d c1 l1 e :
      fetch r req c = (d, None) →
      ProbesOk r d →
      IngressStep r (probed r d) c (None, c1, l1) →
      returned (client.StatusUpdate (Client r) (probed r d) c1) = Some e →
      PassOutcome r req c
        ((ctrl.zeroResult, Some e), c1,
         CallGetDomain (ctrl.ReqNamespacedName req)
           :: (probeCalls d ++ l1 ++ [CallStatusUpdate (probed r d)])%list)
  | PassCompleted d c1 l1 stored :
      fetch r req c = (d, None) →
      ProbesOk r d →
      IngressStep r (probed r d) c (None, c1, l1) →
      client.StatusUpdateErr (Client r) = None →
      domains c1 !! DomainKey d = Some stored →
      PassOutcome r req c
        (({| ctrl.Requeue := false;
             ctrl.RequeueAfter := computeReconcileInterval (probed r d) |}, None),
         {| domains :=
              <[DomainKey d := setStatus stored {| corev1alpha1.DNS := probedStatus r d |}]>
                (domains c1);
            ingresses := ingresses c1 |},
         CallGetDomain (ctrl.ReqNamespacedName req)
           :: (probeCalls d ++ l1 ++ [CallStatusUpdate (probed r d)])%list).

(** ** The claims the code does not meet, as the spec states them *)

(** After a pass that fetched the Domain and returned no error, the stats
    Ingress is stored if and only if the stats-DNS probe answered true. *)
Definition StatsIngressExistsIffProbed (r : DomainReconciler) (req : ctrl.Request) (c : Cluster)
  : Prop :=
  ∀ d, fetch r req c = (d, None) →
       (returned (Reconcile r req c)).2 = None →
       (is_Some (ingresses (clusterAfter (Reconcile r req c)) !! statsIngressKey d)
        ↔ (checker.CheckDomainStatsDNS (DNSChecker r) d).1 = true).

(** A delete of the stats Ingress that reports not found does not fail the
    pass with that error. *)
Definition DeleteNotFoundIsSuccess (r : DomainReconciler) (req : ctrl.Request) (c : Cluster)
  : Prop :=
  ∀ i e, In (CallDelete i) (callsOf (Reconcile r req c)) →
         returned (client.Delete (Client r) i c) = Some e →
         errors.IsNotFound e = true →
         (returned (Reconcile r req c)).2 ≠ Some e.

(** Whenever a pass returns an error it asks for a retry delay. *)
Definition ErrorCarriesRetryDelay (r : DomainReconciler) (req : ctrl.Request) (c : Cluster)
  : Prop :=
  ∀ e, (returned (Reconcile r req c)).2 = Some e →
       0 < ctrl.RequeueAfter (returned (Reconcile r req c)).1.

(** The last call of a pass, if it made any. *)
Definition lastCall (calls : list Call) : option Call := last calls.

Definition endedInProbe (calls : list Call) : bool :=
  match lastCall calls with
  | Some k => isProbeCall k
  | None => false
  end.

(** The checker's answers for a Domain do not depend on the status stored in
    it: with the DNS records unchanged, a later pass gets the same answers. *)
Definition StableProbes (ch : checker.DNSChecker) : Prop :=
  ∀ (d : Domain) (s : corev1alpha1.DomainStatus),
    checker.CheckDomainDKim ch (setStatus d s) = checker.CheckDomainDKim ch d
    ∧ checker.CheckDomainStatsDNS ch (setStatus d s) = checker.CheckDomainStatsDNS ch d
    ∧ checker.CheckDomainSPF ch (setStatus d s) = checker.CheckDomainSPF ch d.

(** A client set to fail no method. *)
Definition noFaults (cl : client.Client) : Prop :=
  client.GetDomainErr cl = None
  ∧ client.GetIngressErr cl = None
  ∧ client.CreateErr cl = None
  ∧ client.DeleteErr cl = None
  ∧ client.StatusUpdateErr cl = None.

(** The calls of a pass that runs all its stages, [m] being the calls the
    Ingress stage makes after its lookup. *)
Definition fullPass (r : DomainReconciler) (req : ctrl.Request) (d : Domain) (m : list Call)
  : list Call :=
  CallGetDomain (ctrl.ReqNamespacedName req)
    :: (probeCalls d ++ [CallGetIngress (statsIngressKey d)] ++ m
          ++ [CallStatusUpdate (probed r d)])%list.

(** At most one call, a create or a delete of an Ingress. *)
Definition atMostOneMutation (m : list Call) : Prop :=
  m = [] ∨ (∃ ing, m = [CallCreate ing]) ∨ (∃ i, m = [CallDelete i]).
(** ** Proof support *)

Ltac unfold_pass :=
  unfold fetch, returned, clusterAfter, callsOf in *;
  unfold Reconcile, reconcileIngress, handleFoundIngress, checkDomainDNS, probe,
    client.GetDomain, client.GetIngress, client.Create, client.Delete, client.StatusUpdate,
    client.IgnoreNotFound, bind, ret in *.

Ltac split_pass :=
  repeat (simplify_eq /=; try done;
          match goal with
          | |- context [match ?x with _ => _ end] => destruct x eqn:?
          | H : context [match ?x with _ => _ end] |- _ => destruct x eqn:?
          end);
  simplify_eq /=.

Lemma computeReconcileInterval_flags (d : Domain) :
  computeReconcileInterval d =
    if corev1alpha1.DKIN (corev1alpha1.DNS (corev1alpha1.Status d))
       && corev1alpha1.Stats (corev1alpha1.DNS (corev1alpha1.Status d))
       && corev1alpha1.SFP (corev1alpha1.DNS (corev1alpha1.Status d))
    then 3600000000000 else 60000000000.
Proof.
  unfold computeReconcileInterval.
  destruct d as [m s [[[] [] []]]]; reflexivity.
Qed.

(** ** The reconcile-interval policy *)

(** C2. [computeReconcileInterval] depends on the Domain through its three
    status flags only; it is one hour (3600 * 10^9 ns) exactly when DKIN,
    Stats and SFP are all true, and one minute (60 * 10^9 ns) for every other
    combination. *)
Theorem computeReconcileInterval_two_tier :
  ∀ d : Domain,
    let dns := corev1alpha1.DNS (corev1alpha1.Status d) in
    let allTrue :=
      corev1alpha1.DKIN dns = true ∧ corev1alpha1.Stats dns = true ∧ corev1alpha1.SFP dns = true in
    computeReconcileInterval d
      = (if corev1alpha1.DKIN dns && corev1alpha1.Stats dns && corev1alpha1.SFP dns
         then 3600000000000 else 60000000000)
    ∧ (computeReconcileInterval d = time.Hour ↔ allTrue)
    ∧ (computeReconcileInterval d = time.Minute ↔ ¬ allTrue)
    ∧ time.Hour = 3600 * 1000000000
    ∧ time.Minute = 60 * 1000000000.
Proof.
  intros d dns allTrue. subst dns allTrue.
  rewrite computeReconcileInterval_flags.
  destruct d as [m s [[[] [] []]]]; cbn;
    (split; [reflexivity|]); (split; [|split; [|split; reflexivity]]);
    split; try discriminate; intuition congruence.
Qed.

(** ** Fetch *)

(** A Domain that is not stored is reported as not found. *)
Lemma fetch_absent (r : DomainReconciler) (req : ctrl.Request) (c : Cluster) :
  client.GetDomainErr (Client r) = None →
  domains c !! ctrl.ReqNamespacedName req = None →
  ∃ e, (fetch r req c).2 = Some e ∧ errors.IsNotFound e = true.
Proof.
  intros Hf Hd. unfold fetch, returned, client.GetDomain. rewrite Hf, Hd. cbn. eauto.
Qed.

(** A stored Domain is fetched unless the client is set to fail. *)
Lemma fetch_stored (r : DomainReconciler) (req : ctrl.Request) (c : Cluster) (d : Domain) :
  client.GetDomainErr (Client r) = None →
  domains c !! ctrl.ReqNamespacedName req = Some d →
  fetch r req c = (d, None).
Proof.
  intros Hf Hd. unfold fetch, returned, client.GetDomain. by rewrite Hf, Hd.
Qed.

Lemma fetch_found (r : DomainReconciler) (req : ctrl.Request) (c : Cluster) (d : Domain) :
  fetch r req c = (d, None) →
  client.GetDomainErr (Client r) = None ∧ domains c !! ctrl.ReqNamespacedName req = Some d.
Proof.
  unfold fetch, returned, client.GetDomain. intros H. split_pass.
Qed.

Lemma Reconcile_unfetched_eq (r : DomainReconciler) (req : ctrl.Request) (c : Cluster)
    (d0 : Domain) (e : Err) :
  fetch r req c = (d0, Some e) →
  Reconcile r req c
    = ((ctrl.zeroResult, if errors.IsNotFound e then None else Some e),
       c, [CallGetDomain (ctrl.ReqNamespacedName req)]).
Proof.
  intros H. unfold_pass. split_pass.
Qed.

(** C8. When Fetch fails with error [e], the pass ends there: the only call
    made is the Get of the Domain (no probe, no Ingress call, no status
    update), the cluster is left as it was and the result is [Result{}]; the
    error returned is nil when [e] is a not-found error and [e] itself
    otherwise. *)
Theorem Reconcile_fetch_failed :
  ∀ (r : DomainReconciler) (req : ctrl.Request) (c : Cluster) (e : Err),
    (fetch r req c).2 = Some e →
    Reconcile r req c
      = ((ctrl.zeroResult, if errors.IsNotFound e then None else Some e),
         c, [CallGetDomain (ctrl.ReqNamespacedName req)]).
Proof.
  intros r req c e H. unfold_pass. split_pass.
Qed.

(** ** Probes *)

(** C3. Once the Domain is fetched, the first probe of the sequence
    DKIM, stats DNS, SPF that returns an error ends the pass: the calls made
    are the Get of the Domain and the probes up to the failing one, the
    cluster is left as it was (no status update, no Ingress created or
    deleted), and the pass returns that error with [RequeueAfter] of one
    minute. *)
Theorem Reconcile_probe_failed :
  ∀ (r : DomainReconciler) (req : ctrl.Request) (c : Cluster) (d : Domain) (e : Err),
    fetch r req c = (d, None) →
    let ch := DNSChecker r in
    let aborted (probes : list Call) :=
      Reconcile r req c
        = (({| ctrl.Requeue := false; ctrl.RequeueAfter := 60000000000 |}, Some e),
           c, CallGetDomain (ctrl.ReqNamespacedName req) :: probes) in
    ((checker.CheckDomainDKim ch d).2 = Some e →
       aborted [CallCheckDomainDKim d])
    ∧ ((checker.CheckDomainDKim ch d).2 = None →
       (checker.CheckDomainStatsDNS ch d).2 = Some e →
       aborted [CallCheckDomainDKim d; CallCheckDomainStatsDNS d])
    ∧ ((checker.CheckDomainDKim ch d).2 = None →
       (checker.CheckDomainStatsDNS ch d).2 = None →
       (checker.CheckDomainSPF ch d).2 = Some e →
       aborted [CallCheckDomainDKim d; CallCheckDomainStatsDNS d; CallCheckDomainSPF d]).
Proof.
  intros r req c d e Hf ch aborted. subst ch aborted. cbv beta.
  apply fetch_found in Hf as [Hg Hd].
  split; [|split]; intros; unfold_pass; rewrite Hg, Hd; split_pass.
Qed.
Lemma buildDesiredIngress_setStatus (r : DomainReconciler) (d : Domain) (s : corev1alpha1.DomainStatus) :
  buildDesiredIngress r (setStatus d s) = buildDesiredIngress r d.
Proof. reflexivity. Qed.

Lemma validateOwner_same_namespace (d : Domain) (m : metav1.ObjectMeta) :
  metav1.Namespace m = DomainNamespace d → ctrl.validateOwner d m = None.
Proof.
  intros H. unfold ctrl.validateOwner. rewrite H.
  repeat case_decide; congruence.
Qed.

(** [buildDesiredIngress] fails exactly when the scheme has no kind for
    Domain, and otherwise returns the canonical Ingress. *)
Lemma buildDesiredIngress_cases (r : DomainReconciler) (d : Domain) :
  match runtime.DomainKind (Scheme r) with
  | Some gvk => buildDesiredIngress r d = (canonicalStatsIngress d gvk, None)
  | None => (buildDesiredIngress r d).2 = Some ctrl.errNoKind
  end.
Proof.
  unfold buildDesiredIngress, ctrl.SetControllerReference.
  rewrite validateOwner_same_namespace by reflexivity.
  destruct (runtime.DomainKind (Scheme r)); reflexivity.
Qed.

Lemma buildDesiredIngress_ok (r : DomainReconciler) (d : Domain) (ing : Ingress) :
  buildDesiredIngress r d = (ing, None) →
  ∃ gvk, runtime.DomainKind (Scheme r) = Some gvk ∧ ing = canonicalStatsIngress d gvk.
Proof.
  intros H. pose proof (buildDesiredIngress_cases r d) as Hc.
  destruct (runtime.DomainKind (Scheme r)) as [gvk|].
  - exists gvk. split; [done|congruence].
  - rewrite H in Hc. discriminate.
Qed.

Lemma buildDesiredIngress_key (r : DomainReconciler) (d : Domain) (ing : Ingress) :
  buildDesiredIngress r d = (ing, None) → IngressKey ing = statsIngressKey d.
Proof. intros (gvk & _ & ->)%buildDesiredIngress_ok. reflexivity. Qed.

(** What [reconcileIngress] does, by what the lookup of the stats Ingress
    returns and by the stats flag of the Domain passed. *)
Lemma reconcileIngress_found (r : DomainReconciler) (d : Domain) (c : Cluster) (i : Ingress) :
  client.GetIngressErr (Client r) = None →
  ingresses c !! statsIngressKey d = Some i →
  reconcileIngress r d c =
    let '(err, c', calls) := handleFoundIngress r i d c in
    (err, c', CallGetIngress (statsIngressKey d) :: calls).
Proof.
  intros Hf Hi. unfold reconcileIngress, bind, client.GetIngress.
  fold (statsIngressKey d). rewrite Hf, Hi.
  by destruct (handleFoundIngress r i d c) as [[? ?] ?].
Qed.

Lemma reconcileIngress_step (r : DomainReconciler) (d : Domain) (c : Cluster) :
  IngressStep r d c (reconcileIngress r d c).
Proof.
  unfold reconcileIngress, handleFoundIngress, bind, ret.
  fold (statsIngressKey d). fold (statsFlag d).
  destruct (client.GetIngress (Client r) (statsIngressKey d) c) as [[[i [e|]] c1] l1] eqn:HG.
  - assert (c1 = c ∧ l1 = [CallGetIngress (statsIngressKey d)]) as [-> ->]
      by (unfold client.GetIngress in HG; split_pass).
    assert (lookupStatsIngress r d c = (i, Some e)) as HL
      by (unfold lookupStatsIngress; by rewrite HG).
    destruct (errors.IsNotFound e) eqn:HN; cbn [negb].
    + destruct (statsFlag d) eqn:HS; cbn [negb].
      * destruct (buildDesiredIngress r d) as [ing [e'|]] eqn:HB.
        -- eapply AbsentBuildFailed; eauto.
        -- unfold client.Create.
           destruct (client.CreateErr (Client r)) as [e'|] eqn:HC.
           ++ eapply AbsentCreateFailed; eauto.
              unfold client.Create, returned. by rewrite HC.
           ++ destruct (ingresses c !! IngressKey ing) eqn:HI.
              ** eapply AbsentCreateFailed; eauto.
                 unfold client.Create, returned. by rewrite HC, HI.
              ** eapply AbsentCreated; eauto.
      * eapply AbsentSkipped; eauto.
    + eapply LookupFailed; eauto.
  - assert (c1 = c ∧ l1 = [CallGetIngress (statsIngressKey d)]) as [-> ->]
      by (unfold client.GetIngress in HG; split_pass).
    assert (lookupStatsIngress r d c = (i, None)) as HL
      by (unfold lookupStatsIngress; by rewrite HG).
    destruct (statsFlag d) eqn:HS.
    + eapply FoundKept; eauto.
    + destruct (metav1.DeletionTimestamp (netwrkingv1.ObjectMeta i)) as [t|] eqn:HT.
      * eapply FoundTerminating; eauto.
      * unfold client.Delete.
        destruct (client.DeleteErr (Client r)) as [e'|] eqn:HC.
        -- eapply FoundDeleteFailed; eauto.
           unfold client.Delete, returned. by rewrite HC.
        -- destruct (ingresses c !! IngressKey i) eqn:HI.
           ++ eapply FoundDeleted; eauto.
           ++ eapply FoundDeleteFailed; eauto.
              unfold client.Delete, returned. by rewrite HC, HI.
Qed.

Lemma checkDomainDNS_cases (r : DomainReconciler) (d : Domain) (c : Cluster) :
  (∃ e probes, ProbeFailure r d e probes
               ∧ checkDomainDNS r d c = ((zeroDNSStatus, Some e), c, probes))
  ∨ (ProbesOk r d ∧ checkDomainDNS r d c = ((probedStatus r d, None), c, probeCalls d)).
Proof.
  unfold checkDomainDNS, probe, bind, ret, ProbesOk, probedStatus, probeCalls.
  destruct (checker.CheckDomainDKim (DNSChecker r) d) as [b1 [e|]] eqn:H1.
  { left. exists e, [CallCheckDomainDKim d]. split; [by eapply DKimFailed|done]. }
  destruct (checker.CheckDomainStatsDNS (DNSChecker r) d) as [b2 [e|]] eqn:H2.
  { left. exists e, [CallCheckDomainDKim d; CallCheckDomainStatsDNS d].
    split; [by eapply StatsDNSFailed|done]. }
  destruct (checker.CheckDomainSPF (DNSChecker r) d) as [b3 [e|]] eqn:H3.
  { left. exists e, [CallCheckDomainDKim d; CallCheckDomainStatsDNS d; CallCheckDomainSPF d].
    split; [by eapply SPFFailed|done]. }
  right. done.
Qed.

(** Every pass ends in one of the five ways. *)
Lemma Reconcile_outcome (r : DomainReconciler) (req : ctrl.Request) (c : Cluster) :
  PassOutcome r req c (Reconcile r req c).
Proof.
  unfold Reconcile, bind.
  destruct (client.GetDomain (Client r) (ctrl.ReqNamespacedName req) c)
    as [[[d [e|]] c0] l0] eqn:HG.
  - assert (c0 = c ∧ l0 = [CallGetDomain (ctrl.ReqNamespacedName req)]) as [-> ->]
      by (unfold client.GetDomain in HG; split_pass).
    cbn. eapply PassFetchFailed. unfold fetch, returned. by rewrite HG.
  - assert (c0 = c ∧ l0 = [CallGetDomain (ctrl.ReqNamespacedName req)]) as [-> ->]
      by (unfold client.GetDomain in HG; split_pass).
    assert (fetch r req c = (d, None)) as HF by (unfold fetch, returned; by rewrite HG).
    destruct (checkDomainDNS_cases r d c) as [(e & probes & HP & ->)|[HP ->]].
    { cbn; rewrite ?app_nil_r. by eapply PassProbeFailed. }
    fold (probed r d).
    pose proof (reconcileIngress_step r (probed r d) c) as HI.
    destruct (reconcileIngress r (probed r d) c) as [[[e|] c1] l1].
    { cbn; rewrite ?app_nil_r. by eapply PassIngressFailed. }
    unfold client.StatusUpdate.
    destruct (client.StatusUpdateErr (Client r)) as [e|] eqn:HU.
    { cbn; rewrite ?app_nil_r. eapply PassUpdateFailed; eauto.
      unfold returned, client.StatusUpdate. by rewrite HU. }
    change (DomainKey (probed r d)) with (DomainKey d).
    destruct (domains c1 !! DomainKey d) as [stored|] eqn:HS.
    + cbn; rewrite ?app_nil_r. by eapply PassCompleted.
    + cbn; rewrite ?app_nil_r. eapply PassUpdateFailed; eauto.
      unfold returned, client.StatusUpdate. rewrite HU.
      change (DomainKey (probed r d)) with (DomainKey d). by rewrite HS.
Qed.

(** ** Facts about the Ingress stage *)

Lemma lookupStatsIngress_found (r : DomainReconciler) (d : Domain) (c : Cluster) (i : Ingress) :
  lookupStatsIngress r d c = (i, None) →
  client.GetIngressErr (Client r) = None ∧ ingresses c !! statsIngressKey d = Some i.
Proof.
  unfold lookupStatsIngress, returned, client.GetIngress. intros H. split_pass.
Qed.

Lemma lookupStatsIngress_absent (r : DomainReconciler) (d : Domain) (c : Cluster)
    (i0 : Ingress) (e : Err) :
  faithfulReads (Client r) →
  lookupStatsIngress r d c = (i0, Some e) →
  errors.IsNotFound e = true →
  client.GetIngressErr (Client r) = None ∧ ingresses c !! statsIngressKey d = None.
Proof.
  unfold lookupStatsIngress, returned, client.GetIngress. intros Hf H HN.
  destruct (client.GetIngressErr (Client r)) as [e'|] eqn:HE.
  - simplify_eq/=. specialize (Hf e HE). congruence.
  - split_pass.
Qed.

Lemma lookupStatsIngress_error (r : DomainReconciler) (d : Domain) (c : Cluster)
    (i0 : Ingress) (e : Err) :
  lookupStatsIngress r d c = (i0, Some e) →
  errors.IsNotFound e = false →
  client.GetIngressErr (Client r) = Some e.
Proof.
  unfold lookupStatsIngress, returned, client.GetIngress. intros H HN.
  destruct (client.GetIngressErr (Client r)) as [e'|] eqn:HE; [by simplify_eq/=|].
  split_pass.
Qed.

Lemma lookupStatsIngress_error_inv (r : DomainReconciler) (d : Domain) (c : Cluster)
    (i0 : Ingress) (e e' : Err) :
  lookupStatsIngress r d c = (i0, Some e) →
  client.GetIngressErr (Client r) = Some e' →
  Some e' = Some e.
Proof.
  unfold lookupStatsIngress, returned, client.GetIngress. intros H HE.
  rewrite HE in H. by simplify_eq/=.
Qed.

Lemma lookupStatsIngress_probed (r : DomainReconciler) (d : Domain) (c : Cluster) :
  lookupStatsIngress r (probed r d) c = lookupStatsIngress r d c.
Proof. reflexivity. Qed.

Lemma buildDesiredIngress_probed (r : DomainReconciler) (d : Domain) :
  buildDesiredIngress r (probed r d) = buildDesiredIngress r d.
Proof. reflexivity. Qed.

Lemma statsFlag_probed (r : DomainReconciler) (d : Domain) :
  statsFlag (probed r d) = (checker.CheckDomainStatsDNS (DNSChecker r) d).1.
Proof. reflexivity. Qed.

(** The Ingress stage never touches a Domain. *)
Lemma IngressStep_domains (r : DomainReconciler) (d : Domain) (c c1 : Cluster)
    (err : error) (l : list Call) :
  IngressStep r d c (err, c1, l) → domains c1 = domains c.
Proof. inversion 1; reflexivity. Qed.

(** The stages keep every object stored under its own key. *)
Lemma IngressStep_wf (r : DomainReconciler) (d : Domain) (c c1 : Cluster)
    (err : error) (l : list Call) :
  wf_cluster c → IngressStep r d c (err, c1, l) → wf_cluster c1.
Proof.
  intros [Hd Hi]. inversion 1; subst; try (split; assumption); split; cbn; try assumption.
  - by apply map_Forall_delete.
  - by apply map_Forall_insert_2.
Qed.

Lemma Reconcile_wf (r : DomainReconciler) (req : ctrl.Request) (c : Cluster) :
  wf_cluster c → wf_cluster (clusterAfter (Reconcile r req c)).
Proof.
  intros Hw. pose proof (Reconcile_outcome r req c) as HO.
  destruct (Reconcile r req c) as [[[res err] c'] calls]. unfold clusterAfter. cbn.
  inversion HO; subst; try assumption; try (by eapply IngressStep_wf).
  match goal with H : IngressStep _ _ _ _ |- _ => apply (IngressStep_wf _ _ _ _ _ _ Hw) in H as [Hd Hi] end.
  split; cbn; [|assumption].
  apply map_Forall_insert_2; [|assumption].
  match goal with H : domains _ !! _ = Some _ |- _ => apply Hd in H end.
  assumption.
Qed.

Lemma List_filter_app {A} (f : A → bool) (l1 l2 : list A) :
  List.filter f (l1 ++ l2) = (List.filter f l1 ++ List.filter f l2)%list.
Proof. apply List.filter_app. Qed.

(** ** The stats Ingress after a pass *)

(** C1 (as amended). After a pass that fetched the Domain and returned no
    error: when the pass's lookup of the stats Ingress reported not found,
    the pass created it (the Ingress [buildDesiredIngress] returns) if the
    stats-DNS flag probed in the pass was true and did nothing to it
    otherwise; when the lookup returned the Ingress, the pass left it alone
    if the flag was true, deleted it if the flag was false and it carried no
    deletion timestamp, and left it alone if the flag was false and it
    carried a deletion timestamp.  So the stats Ingress is stored after the
    pass exactly when the flag was true, or it was stored before and either
    carries a deletion timestamp or was reported not found by the lookup
    all the same; over a client that never reports a stored Ingress as not
    found, exactly when the flag was true or an Ingress already being
    deleted was stored. *)
Theorem Reconcile_stats_ingress_existence :
  ∀ (r : DomainReconciler) (req : ctrl.Request) (c : Cluster) (d : Domain),
    wf_cluster c →
    fetch r req c = (d, None) →
    (returned (Reconcile r req c)).2 = None →
    let flag := (checker.CheckDomainStatsDNS (DNSChecker r) d).1 in
    let key := statsIngressKey d in
    let after := ingresses (clusterAfter (Reconcile r req c)) in
    let mutations := List.filter isIngressMutation (callsOf (Reconcile r req c)) in
    match lookupStatsIngress r d c, flag with
    | (_, Some _), true =>
        ∃ ing, buildDesiredIngress r d = (ing, None)
               ∧ mutations = [CallCreate ing] ∧ after = <[key := ing]> (ingresses c)
    | (_, Some _), false => mutations = [] ∧ after = ingresses c
    | (i, None), true => ingresses c !! key = Some i ∧ mutations = [] ∧ after = ingresses c
    | (i, None), false =>
        ingresses c !! key = Some i
        ∧ match metav1.DeletionTimestamp (netwrkingv1.ObjectMeta i) with
          | None => mutations = [CallDelete i] ∧ after = delete key (ingresses c)
          | Some _ => mutations = [] ∧ after = ingresses c
          end
    end
    ∧ (is_Some (after !! key)
       ↔ flag = true
         ∨ ∃ i, ingresses c !! key = Some i
                ∧ (is_Some (metav1.DeletionTimestamp (netwrkingv1.ObjectMeta i))
                   ∨ is_Some (lookupStatsIngress r d c).2))
    ∧ (faithfulReads (Client r) →
       (is_Some (after !! key)
        ↔ flag = true
          ∨ ∃ i, ingresses c !! key = Some i
                 ∧ is_Some (metav1.DeletionTimestamp (netwrkingv1.ObjectMeta i)))).
Proof.
  intros r req c d Hw Hf Hok flag key after mutations.
  subst flag key after mutations.
  pose proof (Reconcile_outcome r req c) as HO.
  destruct (Reconcile r req c) as [[[res err] c'] calls].
  unfold returned, clusterAfter, callsOf in *. cbn [fst snd] in *. subst err.
  inversion HO as [d0 e HF| |d1 e c1 l1 HF| |d1 c1 l1 stored HF HP HI HU HS];
    subst; try congruence.
  rewrite Hf in HF. symmetry in HF. simplify_eq. clear HO.
  cbn [ingresses]. unfold probeCalls.
  cbn [List.filter isIngressMutation]. rewrite List_filter_app.
  cbn [List.filter isIngressMutation]. rewrite app_nil_r.
  destruct Hw as [Hwd Hwi].
  inversion HI as
    [ | i HL HS' | i t HL HS' HT | i HL HS' HT HD HIs | | i0 e HL HN HS'
    | | i0 e ing HL HN HS' HB HC HIn | ]; subst; cbn [ingresses List.filter isIngressMutation];
    rewrite lookupStatsIngress_probed in HL; rewrite statsFlag_probed in HS';
    rewrite HL, HS'; cbn [snd].
  - apply lookupStatsIngress_found in HL as [_ HL]. rewrite HL.
    split; [done|]. split; [|intros _]; (split; [by left|]); intros _; by eexists.
  - apply lookupStatsIngress_found in HL as [_ HL]. rewrite HL, HT.
    split; [done|]. split; [|intros _]; (split; [|by eexists]); intros _; right;
      exists i; (split; [done|]); [left|]; by eexists.
  - apply lookupStatsIngress_found in HL as [_ HL].
    assert (IngressKey i = statsIngressKey d) as HK by (by apply Hwi in HL).
    rewrite HK, lookup_delete_eq, HL, HT. split; [done|].
    split; [|intros _]; split.
    + intros [? ?]; done.
    + intros [?|(i' & Hi' & [[t Ht]|[? ?]])]; [done| |done]. simplify_eq.
    + intros [? ?]; done.
    + intros [?|(i' & Hi' & [t Ht])]; [done|]. simplify_eq.
  - split; [done|]. split.
    + split.
      * intros [i Hi]. right. exists i. split; [done|]. right. by eexists.
      * intros [?|(i & Hi & _)]; [done|]. by eexists.
    + intros Hfaith.
      apply (lookupStatsIngress_absent _ _ _ _ _ Hfaith) in HL as [_ HL]; [|done].
      rewrite HL. split.
      * intros [? ?]; done.
      * intros [?|(i' & Hi' & _)]; done.
  - rewrite buildDesiredIngress_probed in HB.
    assert (IngressKey ing = statsIngressKey d) as HK by (by eapply buildDesiredIngress_key).
    rewrite HK, lookup_insert_eq.
    split; [by exists ing|]. split; [|intros _]; (split; [by left|by eexists]).
Qed.

(** ** A pass past the probes, as an equation *)

Lemma checkDomainDNS_ok (r : DomainReconciler) (d : Domain) (c : Cluster) :
  ProbesOk r d →
  checkDomainDNS r d c = ((probedStatus r d, None), c, probeCalls d).
Proof.
  intros (H1 & H2 & H3).
  destruct (checkDomainDNS_cases r d c) as [(e & probes & HP & _)|[_ ->]]; [|done].
  inversion HP as [b e' Ha|b1 b e' Ha Hb|b1 b2 b e' Ha Hb Hc]; subst;
    rewrite ?Ha, ?Hb, ?Hc in *; done.
Qed.

Lemma ProbeFailure_not_ok (r : DomainReconciler) (d : Domain) (e : Err) (probes : list Call) :
  ProbeFailure r d e probes → ¬ ProbesOk r d.
Proof.
  intros HP (H1 & H2 & H3).
  inversion HP as [b e' Ha|b1 b e' Ha Hb|b1 b2 b e' Ha Hb Hc]; subst;
    rewrite ?Ha, ?Hb, ?Hc in *; done.
Qed.

Lemma Reconcile_probed (r : DomainReconciler) (req : ctrl.Request) (c : Cluster) (d : Domain) :
  fetch r req c = (d, None) →
  ProbesOk r d →
  Reconcile r req c =
    let '(err, c1, l1) := reconcileIngress r (probed r d) c in
    match err with
    | Some _ =>
        ((ctrl.zeroResult, err), c1,
         CallGetDomain (ctrl.ReqNamespacedName req) :: (probeCalls d ++ l1)%list)
    | None =>
        let '(err2, c2, l2) := client.StatusUpdate (Client r) (probed r d) c1 in
        match err2 with
        | Some _ =>
            ((ctrl.zeroResult, err2), c2,
             CallGetDomain (ctrl.ReqNamespacedName req) :: (probeCalls d ++ l1 ++ l2)%list)
        | None =>
            (({| ctrl.Requeue := false;
                 ctrl.RequeueAfter := computeReconcileInterval (probed r d) |}, None), c2,
             CallGetDomain (ctrl.ReqNamespacedName req) :: (probeCalls d ++ l1 ++ l2)%list)
        end
    end.
Proof.
  intros [Hg Hd]%fetch_found HP.
  unfold Reconcile, bind, client.GetDomain. rewrite Hg, Hd.
  rewrite (checkDomainDNS_ok r d c HP). fold (probed r d).
  destruct (reconcileIngress r (probed r d) c) as [[[e|] c1] l1]; cbn.
  { by rewrite app_nil_r. }
  destruct (client.StatusUpdate (Client r) (probed r d) c1) as [[[e|] c2] l2]; cbn;
    by rewrite app_nil_r.
Qed.

Lemma Delete_failed (cl : client.Client) (i : Ingress) (c : Cluster) (e : Err) :
  returned (client.Delete cl i c) = Some e →
  client.Delete cl i c = (Some e, c, [CallDelete i]).
Proof. unfold returned, client.Delete. intros H. split_pass. Qed.

Lemma StatusUpdate_failed (cl : client.Client) (d : Domain) (c : Cluster) (e : Err) :
  returned (client.StatusUpdate cl d c) = Some e →
  client.StatusUpdate cl d c = (Some e, c, [CallStatusUpdate d]).
Proof. unfold returned, client.StatusUpdate. intros H. split_pass. Qed.

(** ** Status *)

(** C5. Once the Domain is fetched (from a cluster that stores objects under
    their own keys): a pass that returns no error leaves the Domain stored
    with exactly the status built from the three flags its probes returned,
    whatever status was stored before, all three probes having answered
    without error and one status update having been sent; a pass that returns
    an error leaves every stored Domain, status included, as it was, so no
    status made of some fresh and some earlier flags is ever stored. *)
Theorem Reconcile_status_replaced :
  ∀ (r : DomainReconciler) (req : ctrl.Request) (c : Cluster) (d : Domain),
    wf_cluster c →
    fetch r req c = (d, None) →
    let out := Reconcile r req c in
    let fresh :=
      {| corev1alpha1.DNS :=
           {| corev1alpha1.DKIN := (checker.CheckDomainDKim (DNSChecker r) d).1;
              corev1alpha1.Stats := (checker.CheckDomainStatsDNS (DNSChecker r) d).1;
              corev1alpha1.SFP := (checker.CheckDomainSPF (DNSChecker r) d).1 |} |} in
    ((returned out).2 = None →
       ProbesOk r d
       ∧ domains (clusterAfter out)
         = <[ctrl.ReqNamespacedName req := setStatus d fresh]> (domains c)
       ∧ (∀ stored, domains (clusterAfter out) !! ctrl.ReqNamespacedName req = Some stored →
                    corev1alpha1.Status stored = fresh)
       ∧ List.filter isStatusUpdate (callsOf out) = [CallStatusUpdate (setStatus d fresh)])
    ∧ ((returned out).2 ≠ None → domains (clusterAfter out) = domains c).
Proof.
  intros r req c d [Hwd Hwi] Hf out fresh. subst out fresh.
  pose proof (Reconcile_outcome r req c) as HO.
  destruct (Reconcile r req c) as [[[res err] c'] calls].
  unfold returned, clusterAfter, callsOf. cbn [fst snd].
  pose proof Hf as [Hg Hd]%fetch_found.
  assert (DomainKey d = ctrl.ReqNamespacedName req) as HK by (by apply Hwd in Hd).
  inversion HO as
    [d0 e HF|d1 e probes HF HP|d1 e c1 l1 HF HP HI|d1 c1 l1 e HF HP HI HU
    |d1 c1 l1 stored HF HP HI HU HS]; subst; rewrite Hf in HF; simplify_eq.
  - split; [done|]. intros _. reflexivity.
  - split; [done|]. intros _. by eapply IngressStep_domains.
  - split; [done|]. intros _. by eapply IngressStep_domains.
  - split; [|done]. intros _.
    apply IngressStep_domains in HI as HD. cbn [domains].
    rewrite HD, HK in *. rewrite Hd in HS. simplify_eq.
    split; [done|]. split; [done|]. split.
    + intros stored'. rewrite lookup_insert_eq. by intros [= <-].
    + unfold probeCalls. cbn [List.filter isStatusUpdate].
      rewrite !List_filter_app. cbn [List.filter isStatusUpdate].
      assert (List.filter isStatusUpdate l1 = []) as ->; [|done].
      inversion HI; reflexivity.
Qed.

(** ** Errors of the Ingress stage *)

(** C6 (as amended). When the pass deletes the stats Ingress (Domain fetched,
    probes answered, stats flag false, Ingress found without a deletion
    timestamp) and the delete returns an error, whatever its kind, a
    not-found error included, the pass returns that same error with
    [Result{}], sends no status update and leaves the cluster as it was. *)
Theorem Reconcile_delete_error_returned :
  ∀ (r : DomainReconciler) (req : ctrl.Request) (c : Cluster) (d : Domain)
    (i : Ingress) (e : Err),
    fetch r req c = (d, None) →
    ProbesOk r d →
    (checker.CheckDomainStatsDNS (DNSChecker r) d).1 = false →
    lookupStatsIngress r d c = (i, None) →
    metav1.DeletionTimestamp (netwrkingv1.ObjectMeta i) = None →
    returned (client.Delete (Client r) i c) = Some e →
    Reconcile r req c
      = ((ctrl.zeroResult, Some e), c,
         [CallGetDomain (ctrl.ReqNamespacedName req);
          CallCheckDomainDKim d; CallCheckDomainStatsDNS d; CallCheckDomainSPF d;
          CallGetIngress (statsIngressKey d); CallDelete i]).
Proof.
  intros r req c d i e Hf HP Hflag HL HT HD.
  rewrite (Reconcile_probed r req c d Hf HP).
  apply lookupStatsIngress_found in HL as [Hg Hi].
  rewrite (reconcileIngress_found r (probed r d) c i Hg Hi).
  unfold handleFoundIngress. fold (statsFlag (probed r d)).
  rewrite statsFlag_probed, Hflag, HT.
  rewrite (Delete_failed _ _ _ _ HD). reflexivity.
Qed.

(** ** What a pass hands back *)

(** C7 (as amended). A pass that returns no error returns either [Result{}]
    (no delay asked for), having made only the Get of the Domain, or a
    [RequeueAfter] of one hour or of one minute, its last call being the
    status update.  A pass that returns an error returns a [RequeueAfter] of
    one minute when the error is a probe's (the last call made is a probe)
    and [Result{}], with no delay asked for, for every other error (Fetch,
    the Ingress stage, the status update). *)
Theorem Reconcile_result_shape :
  ∀ (r : DomainReconciler) (req : ctrl.Request) (c : Cluster),
    let res := (returned (Reconcile r req c)).1 in
    let calls := callsOf (Reconcile r req c) in
    match (returned (Reconcile r req c)).2 with
    | None =>
        (res = ctrl.zeroResult ∧ calls = [CallGetDomain (ctrl.ReqNamespacedName req)])
        ∨ ((res = {| ctrl.Requeue := false; ctrl.RequeueAfter := 3600000000000 |}
            ∨ res = {| ctrl.Requeue := false; ctrl.RequeueAfter := 60000000000 |})
           ∧ ∃ d, lastCall calls = Some (CallStatusUpdate d))
    | Some e =>
        if endedInProbe calls
        then res = {| ctrl.Requeue := false; ctrl.RequeueAfter := 60000000000 |}
        else res = ctrl.zeroResult
    end.
Proof.
  intros r req c res calls. subst res calls.
  pose proof (Reconcile_outcome r req c) as HO.
  destruct (Reconcile r req c) as [[[res err] c'] calls].
  unfold returned, callsOf. cbn [fst snd].
  inversion HO as
    [d0 e HF|d1 e probes HF HP|d1 e c1 l1 HF HP HI|d1 c1 l1 e HF HP HI HU
    |d1 c1 l1 stored HF HP HI HU HS]; subst.
  - destruct (errors.IsNotFound e); [by left|reflexivity].
  - inversion HP; reflexivity.
  - inversion HI; reflexivity.
  - unfold endedInProbe, lastCall, probeCalls. cbn [app].
    rewrite !app_comm_cons, last_snoc. reflexivity.
  - right. split.
    + rewrite computeReconcileInterval_flags. by destruct (_ && _); [left|right].
    + exists (probed r d1). unfold lastCall, probeCalls. cbn [app].
      by rewrite !app_comm_cons, last_snoc.
Qed.

(** ** The Ingress a pass creates *)

(** C9. Every Ingress a pass asks the API server to create is the canonical
    stats Ingress of the Domain it fetched: named [<domain-name>-stats], in
    the Domain's namespace, with exactly one rule (host the Domain's base
    domain, one path [/] of type Prefix, backend the service [k8nnon] on port
    80, whatever the Domain) and exactly one owner reference, which names
    the Domain (its kind, name and UID) as the controller. *)
Theorem Reconcile_creates_canonical_ingress :
  ∀ (r : DomainReconciler) (req : ctrl.Request) (c : Cluster) (ing : Ingress),
    In (CallCreate ing) (callsOf (Reconcile r req c)) →
    ∃ d gvk,
      fetch r req c = (d, None)
      ∧ runtime.DomainKind (Scheme r) = Some gvk
      ∧ buildDesiredIngress r d = (ing, None)
      ∧ ing = canonicalStatsIngress d gvk
      ∧ metav1.Name (netwrkingv1.ObjectMeta ing) = DomainName d +:+ "-stats"
      ∧ metav1.Namespace (netwrkingv1.ObjectMeta ing) = DomainNamespace d
      ∧ netwrkingv1.Rules (netwrkingv1.Spec ing)
        = [ {| netwrkingv1.Host := corev1alpha1.BaseDomain (corev1alpha1.Spec d);
               netwrkingv1.HTTP :=
                 Some {| netwrkingv1.Paths :=
                           [ {| netwrkingv1.Path := "/";
                                netwrkingv1.PathType_ := Some netwrkingv1.PathTypePrefix;
                                netwrkingv1.Backend :=
                                  {| netwrkingv1.Service :=
                                       Some {| netwrkingv1.ServiceName := "k8nnon";
                                               netwrkingv1.Port :=
                                                 {| netwrkingv1.PortName := "";
                                                    netwrkingv1.Number := 80 |} |} |} |} ] |} |} ]
      ∧ ∃ o, metav1.OwnerReferences (netwrkingv1.ObjectMeta ing) = [o]
             ∧ metav1.OwnerName o = DomainName d
             ∧ metav1.OwnerUID o = metav1.UID (corev1alpha1.ObjectMeta d)
             ∧ metav1.Kind o = runtime.GVKind gvk
             ∧ metav1.Controller o = Some true.
Proof.
  intros r req c ing Hin.
  pose proof (Reconcile_outcome r req c) as HO.
  destruct (Reconcile r req c) as [[[res err] c'] calls].
  unfold callsOf in Hin. cbn [snd] in Hin.
  assert (∃ d, fetch r req c = (d, None) ∧ buildDesiredIngress r d = (ing, None))
    as (d & Hf & HB).
  { inversion HO as
      [d0 e HF|d1 e probes HF HP|d1 e c1 l1 HF HP HI|d1 c1 l1 e HF HP HI HU
      |d1 c1 l1 stored HF HP HI HU HS]; subst.
    - cbn in Hin. intuition discriminate.
    - inversion HP; subst; cbn in Hin; intuition discriminate.
    - exists d1. split; [done|].
      inversion HI; subst; cbn in Hin; intuition (try discriminate); by simplify_eq.
    - exists d1. split; [done|].
      inversion HI; subst; cbn in Hin; intuition (try discriminate); by simplify_eq.
    - exists d1. split; [done|].
      inversion HI; subst; cbn in Hin; intuition (try discriminate); by simplify_eq. }
  destruct (buildDesiredIngress_ok r d ing HB) as (gvk & Hk & ->).
  exists d, gvk. repeat (split; [done|]). eexists. by repeat split.
Qed.

(** ** The Ingress stage run again *)

Lemma reconcileIngress_eq (r : DomainReconciler) (d : Domain) (c : Cluster) :
  ∃ err c1 l1, reconcileIngress r d c = (err, c1, l1) ∧ IngressStep r d c (err, c1, l1).
Proof.
  pose proof (reconcileIngress_step r d c) as H.
  destruct (reconcileIngress r d c) as [[err c1] l1]. eauto.
Qed.

(** On a cluster where the lookup finds the stats Ingress and the flag is
    true, or finds none and the flag is false, the stage only looks. *)
Lemma reconcileIngress_kept (r : DomainReconciler) (d : Domain) (c : Cluster) (i : Ingress) :
  client.GetIngressErr (Client r) = None →
  ingresses c !! statsIngressKey d = Some i →
  statsFlag d = true →
  reconcileIngress r d c = (None, c, [CallGetIngress (statsIngressKey d)]).
Proof.
  intros Hg Hi Hs. rewrite (reconcileIngress_found r d c i Hg Hi).
  unfold handleFoundIngress. fold (statsFlag d). by rewrite Hs.
Qed.

Lemma reconcileIngress_skipped (r : DomainReconciler) (d : Domain) (c : Cluster) :
  client.GetIngressErr (Client r) = None →
  ingresses c !! statsIngressKey d = None →
  statsFlag d = false →
  reconcileIngress r d c = (None, c, [CallGetIngress (statsIngressKey d)]).
Proof.
  intros Hg Hi Hs. unfold reconcileIngress, bind, ret, client.GetIngress.
  fold (statsIngressKey d) (statsFlag d). by rewrite Hg, Hi, Hs.
Qed.

(** Running the Ingress stage on the cluster it left changes nothing more;
    after a stage without error, over faithful reads, it only looks. *)
Lemma reconcileIngress_settled (r : DomainReconciler) (d : Domain) (c : Cluster) :
  wf_cluster c →
  clusterAfter (reconcileIngress r d (clusterAfter (reconcileIngress r d c)))
    = clusterAfter (reconcileIngress r d c)
  ∧ (faithfulReads (Client r) →
     returned (reconcileIngress r d c) = None →
     reconcileIngress r d (clusterAfter (reconcileIngress r d c))
       = (None, clusterAfter (reconcileIngress r d c), [CallGetIngress (statsIngressKey d)])).
Proof.
  intros [Hwd Hwi].
  destruct (reconcileIngress_eq r d c) as (err & c1 & l1 & HR & HI).
  rewrite HR. unfold clusterAfter, returned. cbn [fst snd].
  inversion HI as
    [ i0 e HL HN | i HL HS | i t HL HS HT | i HL HS HT HD HIs | i e HL HS HT HD
    | i0 e HL HN HS | i0 e ing e' HL HN HS HB | i0 e ing HL HN HS HB HC HIn
    | i0 e ing e' HL HN HS HB HC ]; subst;
    try (rewrite !HR; cbn [fst snd]; by split; [|intros _ ?]).
  - apply lookupStatsIngress_found in HL as [Hg Hi].
    assert (IngressKey i = statsIngressKey d) as HK by (by apply Hwi in Hi).
    rewrite HK.
    rewrite reconcileIngress_skipped; [done|done| |done].
    cbn [ingresses]. apply lookup_delete_eq.
  - assert (IngressKey ing = statsIngressKey d) as HK by (by eapply buildDesiredIngress_key).
    rewrite HK in *.
    set (c2 := {| domains := domains c; ingresses := <[statsIngressKey d:=ing]> (ingresses c) |}).
    assert (ingresses c2 !! statsIngressKey d = Some ing) as Hi2
      by (cbn [ingresses c2]; apply lookup_insert_eq).
    split.
    + destruct (client.GetIngressErr (Client r)) as [e2|] eqn:Hg.
      * unfold reconcileIngress, bind, ret, client.GetIngress, client.Create.
        fold (statsIngressKey d) (statsFlag d).
        pose proof (lookupStatsIngress_error_inv _ _ _ _ _ _ HL Hg) as HE.
        simplify_eq.
        rewrite Hg, HN, HS, HB, HC. cbn [negb]. cbv beta iota.
        rewrite HK, Hi2. reflexivity.
      * by rewrite (reconcileIngress_kept r d c2 ing).
    + intros Hfaith _.
      apply (lookupStatsIngress_absent _ _ _ _ _ Hfaith) in HL as [Hg Hi]; [|done].
      by apply (reconcileIngress_kept r d c2 ing).
Qed.

Lemma IngressStep_failed (r : DomainReconciler) (d : Domain) (c c1 : Cluster)
    (e : Err) (l : list Call) :
  IngressStep r d c (Some e, c1, l) → c1 = c.
Proof. inversion 1; reflexivity. Qed.

(** The Ingress stage reads and writes Ingresses only. *)
Lemma reconcileIngress_ext (r : DomainReconciler) (d : Domain) (c c' : Cluster) :
  ingresses c' = ingresses c →
  reconcileIngress r d c' =
    let '(err, c1, l) := reconcileIngress r d c in
    (err, {| domains := domains c'; ingresses := ingresses c1 |}, l).
Proof.
  destruct c as [D I], c' as [D' I']. cbn [ingresses domains]. intros ->.
  unfold reconcileIngress, handleFoundIngress, bind, ret,
    client.GetIngress, client.Create, client.Delete.
  cbn [ingresses domains].
  destruct (client.GetIngressErr (Client r)) as [e|];
    [|destruct (I !! (DomainNamespace d, statsIngressName d)) as [i|]];
    cbn [ingresses domains negb]; split_pass.
Qed.

Lemma Reconcile_not_fetched (r : DomainReconciler) (req : ctrl.Request) (c : Cluster)
    (d0 : Domain) (e : Err) :
  fetch r req c = (d0, Some e) →
  clusterAfter (Reconcile r req c) = c.
Proof.
  intros Hf. pose proof (Reconcile_outcome r req c) as HO.
  destruct (Reconcile r req c) as [[[res err] c'] calls]. unfold clusterAfter. cbn.
  inversion HO; subst; try reflexivity; congruence.
Qed.

Lemma Reconcile_probes_failed (r : DomainReconciler) (req : ctrl.Request) (c : Cluster)
    (d : Domain) (e : Err) (probes : list Call) :
  fetch r req c = (d, None) →
  ProbeFailure r d e probes →
  clusterAfter (Reconcile r req c) = c.
Proof.
  intros Hf HP. pose proof (Reconcile_outcome r req c) as HO.
  destruct (Reconcile r req c) as [[[res err] c'] calls]. unfold clusterAfter. cbn.
  inversion HO as
    [d0 e0 HF|d1 e0 probes0 HF HP0|d1 e0 c1 l1 HF HP0 HI|d1 c1 l1 e0 HF HP0 HI HU
    |d1 c1 l1 stored HF HP0 HI HU HS]; subst; try reflexivity;
    rewrite Hf in HF; simplify_eq; by apply ProbeFailure_not_ok in HP.
Qed.

Lemma StableProbes_probed (r : DomainReconciler) (d : Domain) :
  StableProbes (DNSChecker r) →
  (ProbesOk r d → ProbesOk r (probed r d)) ∧ probed r (probed r d) = probed r d.
Proof.
  intros Hst.
  destruct (Hst d {| corev1alpha1.DNS := probedStatus r d |}) as (H1 & H2 & H3).
  fold (probed r d) in H1, H2, H3. split.
  - unfold ProbesOk. by rewrite H1, H2, H3.
  - unfold probed at 1. unfold probedStatus at 1. rewrite H1, H2, H3. reflexivity.
Qed.

(** ** Idempotence *)

(** C4. Run a pass, then run it again on the cluster the first pass left,
    with the same client and a checker whose answers have not changed: the
    second pass leaves the cluster exactly as the first left it (no Ingress
    created or deleted, the stored status unchanged).  When moreover the
    first pass returned no error and the client's reads are faithful, the
    second pass returns what the first returned and sends no create and no
    delete at all. *)
Theorem Reconcile_idempotent :
  ∀ (r : DomainReconciler) (req : ctrl.Request) (c : Cluster),
    wf_cluster c →
    StableProbes (DNSChecker r) →
    let first := Reconcile r req c in
    let second := Reconcile r req (clusterAfter first) in
    clusterAfter second = clusterAfter first
    ∧ (faithfulReads (Client r) →
       (returned first).2 = None →
       returned second = returned first
       ∧ List.filter isIngressMutation (callsOf second) = []).
Proof.
  intros r req c Hw Hst first second. subst first second.
  destruct (fetch r req c) as [d [e|]] eqn:Hf.
  { rewrite !(Reconcile_not_fetched r req c d e Hf).
    split; [reflexivity|]. intros _ _. split; [reflexivity|].
    rewrite (Reconcile_unfetched_eq r req c d e Hf). unfold callsOf. reflexivity. }
  destruct (checkDomainDNS_cases r d c) as [(e & probes & HP & _)|[HP _]].
  { rewrite !(Reconcile_probes_failed r req c d e probes Hf HP).
    split; [reflexivity|]. intros _ Hok. exfalso.
    pose proof (Reconcile_outcome r req c) as HO.
    destruct (Reconcile r req c) as [[[res err] c'] calls].
    unfold returned in Hok. cbn in Hok. subst.
    inversion HO; subst; try congruence;
      match goal with H : fetch _ _ _ = _ |- _ => rewrite Hf in H; simplify_eq end;
      by eapply ProbeFailure_not_ok. }
  pose proof (Reconcile_probed r req c d Hf HP) as HR.
  destruct (reconcileIngress_eq r (probed r d) c) as (err & c1 & l1 & HRI & HI).
  destruct (reconcileIngress_settled r (probed r d) c Hw) as [Hset1 Hset2].
  rewrite HRI in HR, Hset1, Hset2. unfold clusterAfter, returned in Hset1, Hset2.
  cbn [fst snd] in Hset1, Hset2.
  pose proof (IngressStep_domains _ _ _ _ _ _ HI) as HD.
  pose proof Hf as [Hg Hd]%fetch_found.
  assert (DomainKey d = ctrl.ReqNamespacedName req) as HK
    by (destruct Hw as [Hwd _]; by apply Hwd in Hd).
  assert (fetch r req c1 = (d, None)) as Hf1.
  { apply fetch_stored; [done|]. by rewrite HD. }
  pose proof (Reconcile_probed r req c1 d Hf1 HP) as HR1.
  destruct (reconcileIngress r (probed r d) c1) as [[err' c1'] l1'] eqn:HRI1.
  unfold clusterAfter in Hset1. cbn [fst snd] in Hset1. subst c1'.
  destruct err as [e|].
  { apply IngressStep_failed in HI as ->. rewrite HR. unfold clusterAfter, returned.
    cbn [fst snd]. rewrite HR. cbn [fst snd]. split; [reflexivity|]. intros _ ?. discriminate. }
  destruct (client.StatusUpdate (Client r) (probed r d) c1) as [[err2 c2] l2] eqn:HSU.
  destruct err2 as [e|].
  { assert (c2 = c1) as ->.
    { pose proof (StatusUpdate_failed (Client r) (probed r d) c1 e) as HX.
      unfold returned in HX. rewrite HSU in HX. specialize (HX eq_refl). congruence. }
    rewrite HR. unfold clusterAfter, returned. cbn [fst snd].
    split; [|intros _ ?; discriminate].
    rewrite HR1. destruct err'; reflexivity. }
  (* the first pass completed *)
  unfold client.StatusUpdate in HSU.
  destruct (client.StatusUpdateErr (Client r)) as [e|] eqn:HU; [by simplify_eq|].
  change (DomainKey (probed r d)) with (DomainKey d) in HSU.
  rewrite HD, HK, Hd in HSU. simplify_eq.
  change (setStatus d (corev1alpha1.Status (probed r d))) with (probed r d) in HR.
  set (c2 := {| domains := <[ctrl.ReqNamespacedName req := probed r d]> (domains c);
                ingresses := ingresses c1 |}) in *.
  rewrite HR. unfold clusterAfter, returned. cbn [fst snd].
  destruct (StableProbes_probed r d Hst) as [HP2 Hpp]. specialize (HP2 HP).
  assert (fetch r req c2 = (probed r d, None)) as Hf2.
  { apply fetch_stored; [done|]. apply lookup_insert_eq. }
  rewrite (Reconcile_probed r req c2 (probed r d) Hf2 HP2). rewrite Hpp.
  rewrite (reconcileIngress_ext r (probed r d) c1 c2 eq_refl). rewrite HRI1.
  assert ({| domains := domains c2; ingresses := ingresses c1 |} = c2) as -> by reflexivity.
  assert (client.StatusUpdate (Client r) (probed r d) c2
          = (None, c2, [CallStatusUpdate (probed r d)])) as HSU2.
  { unfold client.StatusUpdate. rewrite HU.
    change (DomainKey (probed r d)) with (DomainKey d). rewrite HK.
    assert (domains c2 !! ctrl.ReqNamespacedName req = Some (probed r d)) as Hl
      by apply lookup_insert_eq.
    rewrite Hl.
    change (setStatus (probed r d) (corev1alpha1.Status (probed r d))) with (probed r d).
    rewrite (insert_id _ _ _ Hl). reflexivity. }
  split.
  - destruct err'; [reflexivity|]. by rewrite HSU2.
  - intros Hfaith _. specialize (Hset2 Hfaith eq_refl). simplify_eq.
    rewrite HSU2. unfold callsOf. cbn [fst snd]. split; reflexivity.
Qed.

(** ** Determinism *)

Lemma reconcileIngress_reconciler (r1 r2 : DomainReconciler) (d : Domain) (c : Cluster) :
  Client r1 = Client r2 → Scheme r1 = Scheme r2 →
  reconcileIngress r1 d c = reconcileIngress r2 d c.
Proof.
  destruct r1 as [cl1 s1 ch1], r2 as [cl2 s2 ch2]. cbn. intros -> ->. reflexivity.
Qed.

(** The Ingress stage sees a cluster through the entry of the stats Ingress. *)
Lemma reconcileIngress_agree (r : DomainReconciler) (d : Domain) (c1 c2 : Cluster) :
  wf_cluster c1 → wf_cluster c2 →
  ingresses c1 !! statsIngressKey d = ingresses c2 !! statsIngressKey d →
  returned (reconcileIngress r d c1) = returned (reconcileIngress r d c2)
  ∧ callsOf (reconcileIngress r d c1) = callsOf (reconcileIngress r d c2)
  ∧ ingresses (clusterAfter (reconcileIngress r d c1)) !! statsIngressKey d
    = ingresses (clusterAfter (reconcileIngress r d c2)) !! statsIngressKey d.
Proof.
  intros [_ Hw1] [_ Hw2] Hi.
  assert (∀ (e : error) (l : list Call),
            returned (e, c1, l) = returned (e, c2, l)
            ∧ callsOf (e, c1, l) = callsOf (e, c2, l)
            ∧ ingresses (clusterAfter (e, c1, l)) !! statsIngressKey d
              = ingresses (clusterAfter (e, c2, l)) !! statsIngressKey d) as Hsame
    by (intros; by repeat split).
  unfold reconcileIngress, handleFoundIngress, bind, ret, client.GetIngress.
  fold (statsIngressKey d) (statsFlag d).
  destruct (ingresses c1 !! statsIngressKey d) as [i|] eqn:Hl1;
    symmetry in Hi; rewrite Hi;
    destruct (client.GetIngressErr (Client r)) as [e|] eqn:Hg;
    cbn [errors.IsNotFound errors.NewNotFound errors.Reason negb];
    try destruct (errors.IsNotFound e); cbn [negb]; try apply Hsame;
    destruct (statsFlag d); cbn [negb]; try apply Hsame.
  - destruct (buildDesiredIngress r d) as [ing [e'|]] eqn:HB; [apply Hsame|].
    assert (IngressKey ing = statsIngressKey d) as HK by (by eapply buildDesiredIngress_key).
    unfold client.Create. rewrite HK, Hl1, Hi.
    destruct (client.CreateErr (Client r)); apply Hsame.
  - destruct (metav1.DeletionTimestamp (netwrkingv1.ObjectMeta i)); [apply Hsame|].
    assert (IngressKey i = statsIngressKey d) as HK by (by apply Hw1 in Hl1).
    unfold client.Delete. rewrite HK, Hl1, Hi.
    destruct (client.DeleteErr (Client r)); [apply Hsame|].
    unfold returned, callsOf, clusterAfter. cbn. by rewrite !lookup_delete_eq.
  - destruct (buildDesiredIngress r d) as [ing [e'|]] eqn:HB; [apply Hsame|].
    assert (IngressKey ing = statsIngressKey d) as HK by (by eapply buildDesiredIngress_key).
    unfold client.Create. rewrite HK, Hl1, Hi.
    destruct (client.CreateErr (Client r)); [apply Hsame|].
    unfold returned, callsOf, clusterAfter. cbn. by rewrite !lookup_insert_eq.
  - destruct (buildDesiredIngress r d) as [ing [e'|]] eqn:HB; [apply Hsame|].
    assert (IngressKey ing = statsIngressKey d) as HK by (by eapply buildDesiredIngress_key).
    unfold client.Create. rewrite HK, Hl1, Hi.
    destruct (client.CreateErr (Client r)); [apply Hsame|].
    unfold returned, callsOf, clusterAfter. cbn. by rewrite !lookup_insert_eq.
Qed.

Lemma reconcileIngress_domains (r : DomainReconciler) (d : Domain) (c : Cluster) :
  domains (clusterAfter (reconcileIngress r d c)) = domains c.
Proof.
  destruct (reconcileIngress_eq r d c) as (err & c1 & l1 & -> & HI).
  by eapply IngressStep_domains.
Qed.

Lemma Reconcile_probe_failure_eq (r : DomainReconciler) (req : ctrl.Request) (c : Cluster)
    (d : Domain) (e : Err) (probes : list Call) :
  fetch r req c = (d, None) →
  ProbeFailure r d e probes →
  Reconcile r req c
    = (({| ctrl.Requeue := false; ctrl.RequeueAfter := 60000000000 |}, Some e), c,
       CallGetDomain (ctrl.ReqNamespacedName req) :: probes).
Proof.
  intros [Hg Hd]%fetch_found HP.
  unfold Reconcile, bind, client.GetDomain. rewrite Hg, Hd.
  unfold checkDomainDNS, probe, bind, ret.
  inversion HP as [b e' Ha|b1 b e' Ha Hb|b1 b2 b e' Ha Hb Hc]; subst;
    rewrite ?Ha, ?Hb, ?Hc; reflexivity.
Qed.

(** C10. Two passes for the same request, by reconcilers with the same
    client and scheme, on two clusters that store the same Domain under the
    request's key and the same stats Ingress (or none) for it, with probes
    that answer the same for that Domain: the two passes return the same
    result and error, make the same calls with the same arguments (so the
    same Ingress is created or deleted and the same status is sent), and
    leave the same Domain, with the same status, and the same stats Ingress
    stored. *)
Theorem Reconcile_deterministic :
  ∀ (r1 r2 : DomainReconciler) (req : ctrl.Request) (c1 c2 : Cluster),
    wf_cluster c1 → wf_cluster c2 →
    Client r1 = Client r2 →
    Scheme r1 = Scheme r2 →
    domains c1 !! ctrl.ReqNamespacedName req = domains c2 !! ctrl.ReqNamespacedName req →
    (∀ d, domains c1 !! ctrl.ReqNamespacedName req = Some d →
          checker.CheckDomainDKim (DNSChecker r1) d = checker.CheckDomainDKim (DNSChecker r2) d
          ∧ checker.CheckDomainStatsDNS (DNSChecker r1) d
            = checker.CheckDomainStatsDNS (DNSChecker r2) d
          ∧ checker.CheckDomainSPF (DNSChecker r1) d = checker.CheckDomainSPF (DNSChecker r2) d
          ∧ ingresses c1 !! statsIngressKey d = ingresses c2 !! statsIngressKey d) →
    returned (Reconcile r1 req c1) = returned (Reconcile r2 req c2)
    ∧ callsOf (Reconcile r1 req c1) = callsOf (Reconcile r2 req c2)
    ∧ domains (clusterAfter (Reconcile r1 req c1)) !! ctrl.ReqNamespacedName req
      = domains (clusterAfter (Reconcile r2 req c2)) !! ctrl.ReqNamespacedName req
    ∧ (∀ d, domains c1 !! ctrl.ReqNamespacedName req = Some d →
            ingresses (clusterAfter (Reconcile r1 req c1)) !! statsIngressKey d
            = ingresses (clusterAfter (Reconcile r2 req c2)) !! statsIngressKey d).
Proof.
  intros r1 r2 req c1 c2 Hw1 Hw2 Hcl Hsc Hdom Hsame.
  assert (fetch r2 req c2 = fetch r1 req c1) as Hfetch.
  { unfold fetch, returned, client.GetDomain. rewrite Hcl, Hdom.
    destruct (client.GetDomainErr (Client r2)); [done|].
    by destruct (domains c2 !! ctrl.ReqNamespacedName req). }
  destruct (fetch r1 req c1) as [d [e|]] eqn:Hf1.
  { rewrite (Reconcile_unfetched_eq r1 req c1 d e Hf1),
      (Reconcile_unfetched_eq r2 req c2 d e Hfetch).
    unfold returned, callsOf, clusterAfter. cbn [fst snd].
    split; [done|]. split; [done|]. split; [done|].
    intros d' Hd'. by destruct (Hsame d' Hd') as (_ & _ & _ & ?). }
  pose proof Hf1 as [Hg1 Hd1]%fetch_found.
  destruct (Hsame d Hd1) as (Hp1 & Hp2 & Hp3 & Hi).
  destruct (checkDomainDNS_cases r1 d c1) as [(e & probes & HP & _)|[HP _]].
  { assert (ProbeFailure r2 d e probes) as HP'.
    { inversion HP as [b e' Ha|b1 b e' Ha Hb|b1 b2 b e' Ha Hb Hc]; subst;
        rewrite ?Hp1, ?Hp2, ?Hp3 in *; econstructor; eauto. }
    rewrite (Reconcile_probe_failure_eq r1 req c1 d e probes Hf1 HP),
      (Reconcile_probe_failure_eq r2 req c2 d e probes Hfetch HP').
    unfold returned, callsOf, clusterAfter. cbn [fst snd].
    split; [done|]. split; [done|]. split; [done|].
    intros d' Hd'. by destruct (Hsame d' Hd') as (_ & _ & _ & ?). }
  assert (ProbesOk r2 d) as HP' by (unfold ProbesOk in *; by rewrite <- Hp1, <- Hp2, <- Hp3).
  assert (probed r2 d = probed r1 d) as Hpr
    by (unfold probed, probedStatus; by rewrite Hp1, Hp2, Hp3).
  rewrite (Reconcile_probed r1 req c1 d Hf1 HP), (Reconcile_probed r2 req c2 d Hfetch HP').
  rewrite Hpr, <- (reconcileIngress_reconciler r1 r2 _ _ Hcl Hsc).
  destruct (reconcileIngress_agree r1 (probed r1 d) c1 c2 Hw1 Hw2 Hi) as (Ha & Hb & Hc).
  pose proof (reconcileIngress_domains r1 (probed r1 d) c1) as HD1.
  pose proof (reconcileIngress_domains r1 (probed r1 d) c2) as HD2.
  destruct (reconcileIngress r1 (probed r1 d) c1) as [[err1 c1'] l1].
  destruct (reconcileIngress r1 (probed r1 d) c2) as [[err2 c2'] l2].
  unfold returned, callsOf, clusterAfter in Ha, Hb, Hc, HD1, HD2. cbn [fst snd] in *.
  subst err2 l2.
  assert (DomainKey d = ctrl.ReqNamespacedName req) as HK
    by (destruct Hw1 as [Hwd _]; by apply Hwd in Hd1).
  destruct err1 as [e|].
  { unfold returned, callsOf, clusterAfter. cbn [fst snd].
    split; [done|]. split; [done|]. split; [by rewrite HD1, HD2|].
    intros d' Hd'. by simplify_eq. }
  unfold client.StatusUpdate. rewrite <- Hcl.
  change (DomainKey (probed r1 d)) with (DomainKey d).
  rewrite HD1, HD2, HK, <- Hdom, Hd1.
  destruct (client.StatusUpdateErr (Client r1)) as [e|];
    unfold returned, callsOf, clusterAfter; cbn [fst snd domains ingresses].
  - split; [done|]. split; [done|]. split; [by rewrite HD1, HD2|].
    intros d' Hd'. by simplify_eq.
  - split; [done|]. split; [done|]. split; [by rewrite !lookup_insert_eq|].
    intros d' Hd'. by simplify_eq.
Qed.

(** ** The scenario, run *)

Lemma wf_fresh : wf_cluster Scenario.fresh.
Proof. split; [by apply map_Forall_singleton|apply map_Forall_empty]. Qed.

Lemma wf_busy : wf_cluster Scenario.busy.
Proof.
  split; [|apply map_Forall_empty].
  apply map_Forall_insert_2; [done|]. by apply map_Forall_singleton.
Qed.

Lemma wf_withIngress (i : Ingress) :
  IngressKey i = ("default", "acme-stats") → wf_cluster (Scenario.withIngress i).
Proof. intros H. split; by apply map_Forall_singleton. Qed.

Lemma stable_answers (a b c : bool) : StableProbes (Scenario.answers a b c).
Proof. intros d s. by repeat split. Qed.

(** The claim of C1 as the spec states it fails: the Domain [acme] is stored
    with its stats Ingress already being deleted, the stats-DNS probe answers
    false; the pass returns no error, sends no delete, and the Ingress is
    still stored. *)
Lemma stats_ingress_left_when_terminating :
  ¬ StatsIngressExistsIffProbed
      (Scenario.reconciler Scenario.plainClient (Scenario.answers true false true))
      Scenario.req (Scenario.withIngress Scenario.acmeStatsTerminating).
Proof.
  intros H. specialize (H Scenario.acme eq_refl eq_refl) as [H _].
  assert (false = true) as Hx; [|discriminate Hx].
  apply H. exists Scenario.acmeStatsTerminating. vm_compute. reflexivity.
Qed.

Lemma Reconcile_stats_ingress_existence_witness :
  is_Some (ingresses
             (clusterAfter
                (Reconcile (Scenario.reconciler Scenario.plainClient (Scenario.answers true true true))
                   Scenario.req Scenario.fresh))
           !! statsIngressKey Scenario.acme).
Proof.
  apply (proj1 (proj2 (Reconcile_stats_ingress_existence
                         (Scenario.reconciler Scenario.plainClient (Scenario.answers true true true))
                         Scenario.req Scenario.fresh Scenario.acme
                         wf_fresh eq_refl eq_refl))).
  left. reflexivity.
Defined.

Lemma Reconcile_probe_failed_witness :
  Reconcile (Scenario.reconciler Scenario.plainClient Scenario.statsLookupFails)
    Scenario.req Scenario.fresh
  = (({| ctrl.Requeue := false; ctrl.RequeueAfter := 60000000000 |}, Some Scenario.timeout),
     Scenario.fresh,
     [CallGetDomain ("default", "acme"); CallCheckDomainDKim Scenario.acme;
      CallCheckDomainStatsDNS Scenario.acme]).
Proof.
  apply (proj1 (proj2 (Reconcile_probe_failed
                         (Scenario.reconciler Scenario.plainClient Scenario.statsLookupFails)
                         Scenario.req Scenario.fresh Scenario.acme Scenario.timeout eq_refl)));
    reflexivity.
Defined.

Lemma Reconcile_idempotent_witness :
  clusterAfter
    (Reconcile (Scenario.reconciler Scenario.plainClient (Scenario.answers true true true))
       Scenario.req
       (clusterAfter
          (Reconcile (Scenario.reconciler Scenario.plainClient (Scenario.answers true true true))
             Scenario.req Scenario.fresh)))
  = clusterAfter
      (Reconcile (Scenario.reconciler Scenario.plainClient (Scenario.answers true true true))
         Scenario.req Scenario.fresh).
Proof.
  apply (proj1 (Reconcile_idempotent
                  (Scenario.reconciler Scenario.plainClient (Scenario.answers true true true))
                  Scenario.req Scenario.fresh wf_fresh (stable_answers true true true))).
Defined.

Lemma Reconcile_status_replaced_witness :
  domains
    (clusterAfter
       (Reconcile (Scenario.reconciler Scenario.plainClient (Scenario.answers true false true))
          Scenario.req Scenario.fresh))
  = <[("default", "acme") :=
        setStatus Scenario.acme
          {| corev1alpha1.DNS :=
               {| corev1alpha1.DKIN := true; corev1alpha1.Stats := false;
                  corev1alpha1.SFP := true |} |}]> (domains Scenario.fresh).
Proof.
  apply (proj1 (Reconcile_status_replaced
                  (Scenario.reconciler Scenario.plainClient (Scenario.answers true false true))
                  Scenario.req Scenario.fresh Scenario.acme wf_fresh eq_refl) eq_refl).
Defined.

(** The claim of C6 as the spec states it fails: the stats Ingress of [acme]
    is stored, the stats-DNS probe answers false, and the delete the pass
    sends reports not found; the pass returns that not-found error. *)
Lemma delete_not_found_fails_pass :
  ¬ DeleteNotFoundIsSuccess
      (Scenario.reconciler Scenario.deleteRacesClient (Scenario.answers true false true))
      Scenario.req (Scenario.withIngress Scenario.acmeStats).
Proof.
  intros H.
  apply (H Scenario.acmeStats Scenario.notFound); [|reflexivity|reflexivity|reflexivity].
  vm_compute. do 5 right. left. reflexivity.
Qed.

Lemma Reconcile_delete_error_returned_witness :
  Reconcile (Scenario.reconciler Scenario.deleteRacesClient (Scenario.answers true false true))
    Scenario.req (Scenario.withIngress Scenario.acmeStats)
  = ((ctrl.zeroResult, Some Scenario.notFound), Scenario.withIngress Scenario.acmeStats,
     [CallGetDomain ("default", "acme");
      CallCheckDomainDKim Scenario.acme; CallCheckDomainStatsDNS Scenario.acme;
      CallCheckDomainSPF Scenario.acme;
      CallGetIngress ("default", "acme-stats"); CallDelete Scenario.acmeStats]).
Proof.
  apply (Reconcile_delete_error_returned
           (Scenario.reconciler Scenario.deleteRacesClient (Scenario.answers true false true))
           Scenario.req (Scenario.withIngress Scenario.acmeStats) Scenario.acme
           Scenario.acmeStats Scenario.notFound);
    first [reflexivity | by repeat split].
Defined.

(** The claim of C7 as the spec states it fails: the status update of the
    pass meets a conflict; the pass returns the conflict with [Result{}],
    whose [RequeueAfter] is zero. *)
Lemma update_conflict_carries_no_delay :
  ¬ ErrorCarriesRetryDelay
      (Scenario.reconciler Scenario.conflictClient (Scenario.answers true true true))
      Scenario.req Scenario.fresh.
Proof.
  intros H. specialize (H Scenario.conflict eq_refl).
  vm_compute in H. discriminate H.
Qed.

Lemma Reconcile_fetch_failed_witness :
  Reconcile (Scenario.reconciler Scenario.plainClient (Scenario.answers true true true))
    Scenario.req Scenario.empty
  = ((ctrl.zeroResult, None), Scenario.empty, [CallGetDomain ("default", "acme")]).
Proof.
  apply (Reconcile_fetch_failed
           (Scenario.reconciler Scenario.plainClient (Scenario.answers true true true))
           Scenario.req Scenario.empty (errors.NewNotFound "domains" "acme")).
  reflexivity.
Defined.

Lemma Reconcile_creates_canonical_ingress_witness :
  ∃ d gvk, Scenario.acmeStats = canonicalStatsIngress d gvk.
Proof.
  destruct (Reconcile_creates_canonical_ingress
              (Scenario.reconciler Scenario.plainClient (Scenario.answers true true true))
              Scenario.req Scenario.fresh Scenario.acmeStats)
    as (d & gvk & _ & _ & _ & H & _).
  - vm_compute. do 5 right. left. reflexivity.
  - exists d, gvk. exact H.
Defined.

Lemma Reconcile_deterministic_witness :
  returned (Reconcile (Scenario.reconciler Scenario.plainClient (Scenario.answers true true true))
              Scenario.req Scenario.fresh)
  = returned (Reconcile (Scenario.reconciler Scenario.plainClient Scenario.byBaseDomain)
                Scenario.req Scenario.busy).
Proof.
  apply (Reconcile_deterministic
           (Scenario.reconciler Scenario.plainClient (Scenario.answers true true true))
           (Scenario.reconciler Scenario.plainClient Scenario.byBaseDomain)
           Scenario.req Scenario.fresh Scenario.busy wf_fresh wf_busy eq_refl eq_refl eq_refl).
  intros d Hd. vm_compute in Hd. injection Hd as <-. by repeat split.
Defined.

(** ** More on the stages *)

Lemma string_length_app (s t : string) :
  String.length (s +:+ t) = (String.length s + String.length t)%nat.
Proof. induction s as [|a s IH]; simpl; [reflexivity|f_equal; exact IH]. Qed.

Lemma string_app_inj_r (s1 s2 t : string) : s1 +:+ t = s2 +:+ t → s1 = s2.
Proof.
  revert s2. induction s1 as [|a s1 IH]; intros [|b s2] H.
  - reflexivity.
  - apply (f_equal String.length) in H. rewrite !string_length_app in H. simpl in H. lia.
  - apply (f_equal String.length) in H. rewrite !string_length_app in H. simpl in H. lia.
  - simpl in H. injection H as -> H. by rewrite (IH s2 H).
Qed.

(** X13. Two Domains have the same stats Ingress (same namespace and same
    Ingress name) only if they have the same namespace and name: no two
    Domains share a stats Ingress. *)
Theorem statsIngressKey_inj :
  ∀ d1 d2 : Domain, statsIngressKey d1 = statsIngressKey d2 → DomainKey d1 = DomainKey d2.
Proof.
  intros d1 d2 H. unfold statsIngressKey, statsIngressName, DomainKey in *.
  injection H as Hns Hn. apply string_app_inj_r in Hn. by rewrite Hns, Hn.
Qed.

(** X1. [checkDomainDNS] never touches the cluster and calls the probes in
    the order DKIM, stats DNS, SPF, stopping at the first that returns an
    error: with [n] the position of the first failing probe (3 when none
    fails), the calls made are exactly the first [n + 1] of the three probe
    calls (all three when none fails) and no later probe is called; the
    error returned is that first probe's error (none when none fails); the
    status returned is the zero status when a probe fails, whatever the
    probes before it answered, and the three flags answered otherwise. *)
Theorem checkDomainDNS_result :
  ∀ (r : DomainReconciler) (d : Domain) (c : Cluster),
    let answers :=
      [checker.CheckDomainDKim (DNSChecker r) d;
       checker.CheckDomainStatsDNS (DNSChecker r) d;
       checker.CheckDomainSPF (DNSChecker r) d] in
    let n :=
      match list_find (λ a : bool * error, is_Some a.2) answers with
      | Some (i, _) => i
      | None => 3%nat
      end in
    clusterAfter (checkDomainDNS r d c) = c
    ∧ callsOf (checkDomainDNS r d c) = take (S n) (probeCalls d)
    ∧ (returned (checkDomainDNS r d c)).2
      = match answers !! n with Some a => a.2 | None => None end
    ∧ (returned (checkDomainDNS r d c)).1
      = match answers !! n with
        | Some _ => zeroDNSStatus
        | None =>
            {| corev1alpha1.DKIN := (checker.CheckDomainDKim (DNSChecker r) d).1;
               corev1alpha1.Stats := (checker.CheckDomainStatsDNS (DNSChecker r) d).1;
               corev1alpha1.SFP := (checker.CheckDomainSPF (DNSChecker r) d).1 |}
        end
    ∧ callsOf (checkDomainDNS r d c) `prefix_of` probeCalls d.
Proof.
  intros r d c answers n. subst answers n.
  unfold checkDomainDNS, probe, bind, ret, probeCalls, clusterAfter, callsOf, returned.
  destruct (checker.CheckDomainDKim (DNSChecker r) d) as [b1 [e1|]];
    [cbn; repeat split; by eexists|].
  destruct (checker.CheckDomainStatsDNS (DNSChecker r) d) as [b2 [e2|]];
    [cbn; repeat split; by eexists|].
  destruct (checker.CheckDomainSPF (DNSChecker r) d) as [b3 [e3|]];
    cbn; repeat split; by eexists.
Qed.

Lemma reconcileIngress_created (r : DomainReconciler) (d : Domain) (c : Cluster) (ing : Ingress) :
  client.GetIngressErr (Client r) = None →
  client.CreateErr (Client r) = None →
  ingresses c !! statsIngressKey d = None →
  statsFlag d = true →
  buildDesiredIngress r d = (ing, None) →
  reconcileIngress r d c
    = (None,
       {| domains := domains c; ingresses := <[statsIngressKey d := ing]> (ingresses c) |},
       [CallGetIngress (statsIngressKey d); CallCreate ing]).
Proof.
  intros Hg Hc Hi Hs Hb.
  assert (IngressKey ing = statsIngressKey d) as HK by (by eapply buildDesiredIngress_key).
  unfold reconcileIngress, bind, ret, client.GetIngress, client.Create.
  fold (statsIngressKey d) (statsFlag d).
  rewrite Hg, Hi. cbn [errors.IsNotFound errors.NewNotFound errors.Reason negb].
  rewrite Hs, Hb, Hc. cbn [negb]. cbv beta iota. rewrite HK, Hi. reflexivity.
Qed.

Lemma reconcileIngress_deleted (r : DomainReconciler) (d : Domain) (c : Cluster) (i : Ingress) :
  client.GetIngressErr (Client r) = None →
  client.DeleteErr (Client r) = None →
  ingresses c !! statsIngressKey d = Some i →
  IngressKey i = statsIngressKey d →
  statsFlag d = false →
  metav1.DeletionTimestamp (netwrkingv1.ObjectMeta i) = None →
  reconcileIngress r d c
    = (None,
       {| domains := domains c; ingresses := delete (statsIngressKey d) (ingresses c) |},
       [CallGetIngress (statsIngressKey d); CallDelete i]).
Proof.
  intros Hg Hc Hi HK Hs Ht.
  rewrite (reconcileIngress_found r d c i Hg Hi).
  unfold handleFoundIngress, client.Delete. fold (statsFlag d).
  rewrite Hs, Ht, Hc, HK, Hi. reflexivity.
Qed.

Lemma StatusUpdate_stored (cl : client.Client) (d stored : Domain) (c : Cluster) :
  client.StatusUpdateErr cl = None →
  domains c !! DomainKey d = Some stored →
  client.StatusUpdate cl d c
    = (None,
       {| domains := <[DomainKey d := setStatus stored (corev1alpha1.Status d)]> (domains c);
          ingresses := ingresses c |},
       [CallStatusUpdate d]).
Proof. intros Hu Hd. unfold client.StatusUpdate. by rewrite Hu, Hd. Qed.

Lemma IngressStep_other_keys (r : DomainReconciler) (d : Domain) (c c1 : Cluster)
    (err : error) (l : list Call) (k : NamespacedName) :
  wf_cluster c → IngressStep r d c (err, c1, l) → k ≠ statsIngressKey d →
  ingresses c1 !! k = ingresses c !! k.
Proof.
  intros [_ Hwi] HI Hk.
  inversion HI as
    [ | | | i HL HS HT HD HIs | | | | i0 e ing HL HN HS HB HC HIn | ]; subst;
    try reflexivity; cbn [ingresses].
  - apply lookupStatsIngress_found in HL as [_ HL].
    assert (IngressKey i = statsIngressKey d) as -> by (by apply Hwi in HL).
    by rewrite lookup_delete_ne.
  - assert (IngressKey ing = statsIngressKey d) as -> by (by eapply buildDesiredIngress_key).
    by rewrite lookup_insert_ne.
Qed.

(** ** What a pass leaves alone *)

(** X2. A pass that fetched Domain [d] touches at most two stored objects:
    every Ingress other than the stats Ingress of [d] and every Domain other
    than the one asked for is stored after the pass exactly as before,
    whether the pass fails or not. *)
Theorem Reconcile_frame :
  ∀ (r : DomainReconciler) (req : ctrl.Request) (c : Cluster) (d : Domain),
    wf_cluster c →
    fetch r req c = (d, None) →
    (∀ k, k ≠ statsIngressKey d →
          ingresses (clusterAfter (Reconcile r req c)) !! k = ingresses c !! k)
    ∧ (∀ k, k ≠ ctrl.ReqNamespacedName req →
            domains (clusterAfter (Reconcile r req c)) !! k = domains c !! k).
Proof.
  intros r req c d Hw Hf.
  pose proof Hf as [Hg Hd]%fetch_found.
  assert (DomainKey d = ctrl.ReqNamespacedName req) as HK
    by (destruct Hw as [Hwd _]; by apply Hwd in Hd).
  pose proof (Reconcile_outcome r req c) as HO.
  destruct (Reconcile r req c) as [[[res err] c'] calls]. unfold clusterAfter. cbn [fst snd].
  inversion HO as
    [d0 e HF|d1 e probes HF HP|d1 e c1 l1 HF HP HI|d1 c1 l1 e HF HP HI HU
    |d1 c1 l1 stored HF HP HI HU HS]; subst; rewrite Hf in HF; simplify_eq;
    try (split; intros; reflexivity).
  - split; intros k Hk.
    + by apply (IngressStep_other_keys _ _ _ _ _ _ k Hw HI).
    + by rewrite (IngressStep_domains _ _ _ _ _ _ HI).
  - split; intros k Hk.
    + by apply (IngressStep_other_keys _ _ _ _ _ _ k Hw HI).
    + by rewrite (IngressStep_domains _ _ _ _ _ _ HI).
  - split; intros k Hk; cbn [ingresses domains].
    + by apply (IngressStep_other_keys _ _ _ _ _ _ k Hw HI).
    + rewrite HK, lookup_insert_ne by done.
      by rewrite (IngressStep_domains _ _ _ _ _ _ HI).
Qed.

(** X3. A pass never creates or deletes a Domain and never changes the
    metadata or the spec of one: for every key, a Domain is stored after the
    pass if and only if one was stored before, and it has the same
    [ObjectMeta] and the same [Spec]. *)
Theorem Reconcile_keeps_domains :
  ∀ (r : DomainReconciler) (req : ctrl.Request) (c : Cluster) (k : NamespacedName),
    match domains (clusterAfter (Reconcile r req c)) !! k, domains c !! k with
    | Some d', Some d =>
        corev1alpha1.ObjectMeta d' = corev1alpha1.ObjectMeta d
        ∧ corev1alpha1.Spec d' = corev1alpha1.Spec d
    | None, None => True
    | _, _ => False
    end.
Proof.
  intros r req c k.
  assert (∀ m : gmap NamespacedName Domain,
            match m !! k, m !! k with
            | Some d', Some d =>
                corev1alpha1.ObjectMeta d' = corev1alpha1.ObjectMeta d
                ∧ corev1alpha1.Spec d' = corev1alpha1.Spec d
            | None, None => True
            | _, _ => False
            end) as Hsame by (intros m; by destruct (m !! k)).
  pose proof (Reconcile_outcome r req c) as HO.
  destruct (Reconcile r req c) as [[[res err] c'] calls]. unfold clusterAfter. cbn [fst snd].
  inversion HO as
    [d0 e HF|d1 e probes HF HP|d1 e c1 l1 HF HP HI|d1 c1 l1 e HF HP HI HU
    |d1 c1 l1 stored HF HP HI HU HS]; subst;
    try apply Hsame;
    try (rewrite (IngressStep_domains _ _ _ _ _ _ HI); apply Hsame).
  cbn [domains]. rewrite (IngressStep_domains _ _ _ _ _ _ HI) in *.
  destruct (decide (DomainKey d1 = k)) as [<-|Hne].
  - rewrite lookup_insert_eq, HS. done.
  - rewrite lookup_insert_ne by done. apply Hsame.
Qed.

(** ** Errors of the Ingress stage and of the status update *)

Lemma Create_failed (cl : client.Client) (i : Ingress) (c : Cluster) (e : Err) :
  returned (client.Create cl i c) = Some e →
  client.Create cl i c = (Some e, c, [CallCreate i]).
Proof. unfold returned, client.Create. intros H. split_pass. Qed.

Lemma reconcileIngress_absent_eq (r : DomainReconciler) (d : Domain) (c : Cluster)
    (i0 : Ingress) (e0 : Err) :
  lookupStatsIngress r d c = (i0, Some e0) →
  errors.IsNotFound e0 = true →
  statsFlag d = true →
  reconcileIngress r d c =
    match buildDesiredIngress r d with
    | (_, Some err) => (Some err, c, [CallGetIngress (statsIngressKey d)])
    | (ing, None) =>
        let '(err, c1, l) := client.Create (Client r) ing c in
        (err, c1, CallGetIngress (statsIngressKey d) :: l)
    end.
Proof.
  intros HL HN HS. unfold reconcileIngress, bind, ret. fold (statsIngressKey d) (statsFlag d).
  unfold lookupStatsIngress, returned in HL.
  destruct (client.GetIngress (Client r) (statsIngressKey d) c) as [[x c1] l1] eqn:HG.
  cbn [fst] in HL. subst x.
  assert (c1 = c ∧ l1 = [CallGetIngress (statsIngressKey d)]) as [-> ->]
    by (unfold client.GetIngress in HG; split_pass).
  rewrite HN, HS. cbn [negb].
  destruct (buildDesiredIngress r d) as [ing [e'|]]; [reflexivity|].
  by destruct (client.Create (Client r) ing c) as [[? ?] ?].
Qed.

(** X5. When the stats Ingress is to be created (Domain fetched, probes
    answered, stats flag true, Ingress not found) and the create returns an
    error, an already-exists error included, the pass returns that same
    error with [Result{}], sends no status update and leaves the cluster as
    it was. *)
Theorem Reconcile_create_error_returned :
  ∀ (r : DomainReconciler) (req : ctrl.Request) (c : Cluster) (d : Domain)
    (i0 ing : Ingress) (e0 e : Err),
    fetch r req c = (d, None) →
    ProbesOk r d →
    (checker.CheckDomainStatsDNS (DNSChecker r) d).1 = true →
    lookupStatsIngress r d c = (i0, Some e0) →
    errors.IsNotFound e0 = true →
    buildDesiredIngress r d = (ing, None) →
    returned (client.Create (Client r) ing c) = Some e →
    Reconcile r req c
      = ((ctrl.zeroResult, Some e), c,
         [CallGetDomain (ctrl.ReqNamespacedName req);
          CallCheckDomainDKim d; CallCheckDomainStatsDNS d; CallCheckDomainSPF d;
          CallGetIngress (statsIngressKey d); CallCreate ing]).
Proof.
  intros r req c d i0 ing e0 e Hf HP Hflag HL HN HB HC.
  rewrite (Reconcile_probed r req c d Hf HP).
  rewrite (reconcileIngress_absent_eq r (probed r d) c i0 e0 HL HN Hflag).
  rewrite buildDesiredIngress_probed, HB, (Create_failed _ _ _ _ HC). reflexivity.
Qed.

(** X6. When the stats Ingress is to be created but the scheme has no kind
    registered for Domain, the owner reference cannot be set: the pass
    returns that error with [Result{}] and sends neither a create nor a
    status update; the cluster is left as it was. *)
Theorem Reconcile_unregistered_kind :
  ∀ (r : DomainReconciler) (req : ctrl.Request) (c : Cluster) (d : Domain)
    (i0 : Ingress) (e0 : Err),
    fetch r req c = (d, None) →
    ProbesOk r d →
    (checker.CheckDomainStatsDNS (DNSChecker r) d).1 = true →
    lookupStatsIngress r d c = (i0, Some e0) →
    errors.IsNotFound e0 = true →
    runtime.DomainKind (Scheme r) = None →
    Reconcile r req c
      = ((ctrl.zeroResult, Some ctrl.errNoKind), c,
         [CallGetDomain (ctrl.ReqNamespacedName req);
          CallCheckDomainDKim d; CallCheckDomainStatsDNS d; CallCheckDomainSPF d;
          CallGetIngress (statsIngressKey d)]).
Proof.
  intros r req c d i0 e0 Hf HP Hflag HL HN HK.
  rewrite (Reconcile_probed r req c d Hf HP).
  rewrite (reconcileIngress_absent_eq r (probed r d) c i0 e0 HL HN Hflag).
  rewrite buildDesiredIngress_probed.
  pose proof (buildDesiredIngress_cases r d) as HB. rewrite HK in HB.
  destruct (buildDesiredIngress r d) as [ing [e'|]]; cbn in HB; [|discriminate HB].
  by simplify_eq.
Qed.

(** X7. When the lookup of the stats Ingress fails with an error that is not
    a not-found error, the pass returns that error with [Result{}] whatever
    the stats flag is: nothing is created or deleted and no status update is
    sent. *)
Theorem Reconcile_lookup_error_returned :
  ∀ (r : DomainReconciler) (req : ctrl.Request) (c : Cluster) (d : Domain)
    (i0 : Ingress) (e : Err),
    fetch r req c = (d, None) →
    ProbesOk r d →
    lookupStatsIngress r d c = (i0, Some e) →
    errors.IsNotFound e = false →
    Reconcile r req c
      = ((ctrl.zeroResult, Some e), c,
         [CallGetDomain (ctrl.ReqNamespacedName req);
          CallCheckDomainDKim d; CallCheckDomainStatsDNS d; CallCheckDomainSPF d;
          CallGetIngress (statsIngressKey d)]).
Proof.
  intros r req c d i0 e Hf HP HL HN.
  rewrite (Reconcile_probed r req c d Hf HP).
  unfold reconcileIngress, bind, ret. fold (statsIngressKey (probed r d)).
  unfold lookupStatsIngress, returned in HL.
  change (statsIngressKey (probed r d)) with (statsIngressKey d).
  destruct (client.GetIngress (Client r) (statsIngressKey d) c) as [[x c1] l1] eqn:HG.
  cbn [fst] in HL. subst x.
  assert (c1 = c ∧ l1 = [CallGetIngress (statsIngressKey d)]) as [-> ->]
    by (unfold client.GetIngress in HG; split_pass).
  rewrite HN. reflexivity.
Qed.

(** X8. When the Ingress stage went through and the status update then
    fails, the pass returns the update's error with [Result{}]; no Domain is
    changed, and what the Ingress stage did in this pass (the stats Ingress
    created or deleted) stays done: the cluster is left as the Ingress stage
    left it. *)
Theorem Reconcile_update_error_returned :
  ∀ (r : DomainReconciler) (req : ctrl.Request) (c : Cluster) (d : Domain) (e : Err),
    fetch r req c = (d, None) →
    ProbesOk r d →
    returned (reconcileIngress r (probed r d) c) = None →
    returned (client.StatusUpdate (Client r) (probed r d)
                (clusterAfter (reconcileIngress r (probed r d) c))) = Some e →
    Reconcile r req c
      = ((ctrl.zeroResult, Some e),
         clusterAfter (reconcileIngress r (probed r d) c),
         CallGetDomain (ctrl.ReqNamespacedName req)
           :: (probeCalls d ++ callsOf (reconcileIngress r (probed r d) c)
                 ++ [CallStatusUpdate (probed r d)])%list)
      ∧ domains (clusterAfter (Reconcile r req c)) = domains c.
Proof.
  intros r req c d e Hf HP HI HU.
  rewrite (Reconcile_probed r req c d Hf HP).
  pose proof (reconcileIngress_domains r (probed r d) c) as HD.
  destruct (reconcileIngress r (probed r d) c) as [[err c1] l1].
  unfold returned, clusterAfter, callsOf in *. cbn [fst snd] in *. subst err.
  pose proof (StatusUpdate_failed (Client r) (probed r d) c1 e) as HX.
  unfold returned in HX. rewrite (HX HU). cbn [fst snd]. done.
Qed.

(** ** The order and the kind of the calls of a pass *)

(** X9. The calls of any pass are, in this order, the Get of the Domain, the
    DKIM, stats-DNS and SPF probes, the Get of the stats Ingress, at most one
    create or delete of an Ingress, and the status update, cut short where
    the pass ended: the list of calls is a prefix of that sequence. *)
Theorem Reconcile_call_order :
  ∀ (r : DomainReconciler) (req : ctrl.Request) (c : Cluster),
    ∃ m, atMostOneMutation m
         ∧ callsOf (Reconcile r req c) `prefix_of` fullPass r req (fetch r req c).1 m.
Proof.
  intros r req c.
  pose proof (Reconcile_outcome r req c) as HO.
  destruct (Reconcile r req c) as [[[res err] c'] calls]. unfold callsOf. cbn [snd].
  unfold fullPass, probeCalls, atMostOneMutation.
  inversion HO as
    [d0 e HF|d1 e probes HF HP|d1 e c1 l1 HF HP HI|d1 c1 l1 e HF HP HI HU
    |d1 c1 l1 stored HF HP HI HU HS]; subst; rewrite HF; cbn [fst].
  - exists []. split; [by left|]. by eexists.
  - exists []. split; [by left|]. inversion HP; subst; by eexists.
  - inversion HI; subst;
      first [ exists []; split; [by left|]; by eexists
            | eexists [_]; split; [right; left; by eexists|]; by eexists
            | eexists [_]; split; [right; right; by eexists|]; by eexists ].
  - inversion HI; subst;
      first [ exists []; split; [by left|]; by eexists
            | eexists [_]; split; [right; left; by eexists|]; by eexists
            | eexists [_]; split; [right; right; by eexists|]; by eexists ].
  - inversion HI; subst;
      first [ exists []; split; [by left|]; by eexists
            | eexists [_]; split; [right; left; by eexists|]; by eexists
            | eexists [_]; split; [right; right; by eexists|]; by eexists ].
Qed.

(** X10. A create or a delete of an Ingress is sent by a pass only after the
    Domain was fetched and all three probes answered, and it is the only
    create or delete of the pass.  A create is sent only when the stats flag
    probed is true and the lookup of the stats Ingress reported not found,
    and it creates the Ingress [buildDesiredIngress] returns; a delete is
    sent only when the flag is false, and it deletes the Ingress the lookup
    returned, which carries no deletion timestamp. *)
Theorem Reconcile_mutation_discipline :
  ∀ (r : DomainReconciler) (req : ctrl.Request) (c : Cluster) (k : Call),
    In k (callsOf (Reconcile r req c)) →
    isIngressMutation k = true →
    let d := (fetch r req c).1 in
    (fetch r req c).2 = None
    ∧ ProbesOk r d
    ∧ List.filter isIngressMutation (callsOf (Reconcile r req c)) = [k]
    ∧ match k with
      | CallCreate ing =>
          (checker.CheckDomainStatsDNS (DNSChecker r) d).1 = true
          ∧ (∃ i0 e0, lookupStatsIngress r d c = (i0, Some e0) ∧ errors.IsNotFound e0 = true)
          ∧ buildDesiredIngress r d = (ing, None)
      | CallDelete i =>
          (checker.CheckDomainStatsDNS (DNSChecker r) d).1 = false
          ∧ lookupStatsIngress r d c = (i, None)
          ∧ metav1.DeletionTimestamp (netwrkingv1.ObjectMeta i) = None
      | _ => False
      end.
Proof.
  intros r req c k Hin Hk d. subst d.
  pose proof (Reconcile_outcome r req c) as HO.
  destruct (Reconcile r req c) as [[[res err] c'] calls]. unfold callsOf in *. cbn [snd] in *.
  inversion HO as
    [d0 e HF|d1 e probes HF HP|d1 e c1 l1 HF HP HI|d1 c1 l1 e HF HP HI HU
    |d1 c1 l1 stored HF HP HI HU HS]; subst; rewrite HF; cbn [fst snd].
  - cbn in Hin. destruct Hin as [<-|[]]. discriminate Hk.
  - inversion HP; subst; cbn in Hin;
      repeat (destruct Hin as [<-|Hin]; [try discriminate Hk|]); by destruct Hin.
  - inversion HI; subst; cbn in Hin;
      repeat (destruct Hin as [<-|Hin]; [try discriminate Hk|]); try (by destruct Hin);
      destruct HP as (? & ? & ?); repeat split; eauto.
  - inversion HI; subst; cbn in Hin;
      repeat (destruct Hin as [<-|Hin]; [try discriminate Hk|]); try (by destruct Hin);
      destruct HP as (? & ? & ?); repeat split; eauto.
  - inversion HI; subst; cbn in Hin;
      repeat (destruct Hin as [<-|Hin]; [try discriminate Hk|]); try (by destruct Hin);
      destruct HP as (? & ? & ?); repeat split; eauto.
Qed.

(** X11. A pass that fetched the Domain and returns no error returns
    [Requeue] false and a [RequeueAfter] of one hour when the three probes of
    this pass all answered true, and of one minute otherwise. *)
Theorem Reconcile_success_interval :
  ∀ (r : DomainReconciler) (req : ctrl.Request) (c : Cluster) (d : Domain),
    fetch r req c = (d, None) →
    (returned (Reconcile r req c)).2 = None →
    (returned (Reconcile r req c)).1
      = {| ctrl.Requeue := false;
           ctrl.RequeueAfter :=
             if (checker.CheckDomainDKim (DNSChecker r) d).1
                && (checker.CheckDomainStatsDNS (DNSChecker r) d).1
                && (checker.CheckDomainSPF (DNSChecker r) d).1
             then 3600000000000 else 60000000000 |}.
Proof.
  intros r req c d Hf Hok.
  pose proof (Reconcile_outcome r req c) as HO.
  destruct (Reconcile r req c) as [[[res err] c'] calls].
  unfold returned in *. cbn [fst snd] in *. subst err.
  inversion HO as
    [d0 e HF|d1 e probes HF HP|d1 e c1 l1 HF HP HI|d1 c1 l1 e HF HP HI HU
    |d1 c1 l1 stored HF HP HI HU HS]; subst; rewrite Hf in HF; simplify_eq.
  by rewrite computeReconcileInterval_flags.
Qed.

(** ** Passes over a client that fails nothing *)

Lemma reconcileIngress_terminating (r : DomainReconciler) (d : Domain) (c : Cluster)
    (i : Ingress) (t : Z) :
  client.GetIngressErr (Client r) = None →
  ingresses c !! statsIngressKey d = Some i →
  statsFlag d = false →
  metav1.DeletionTimestamp (netwrkingv1.ObjectMeta i) = Some t →
  reconcileIngress r d c = (None, c, [CallGetIngress (statsIngressKey d)]).
Proof.
  intros Hg Hi Hs Ht. rewrite (reconcileIngress_found r d c i Hg Hi).
  unfold handleFoundIngress. fold (statsFlag d). by rewrite Hs, Ht.
Qed.

(** The Ingresses a fault-free Ingress stage leaves. *)
Lemma reconcileIngress_fault_free (r : DomainReconciler) (d : Domain) (c : Cluster)
    (gvk : runtime.GroupVersionKind) :
  noFaults (Client r) →
  wf_cluster c →
  runtime.DomainKind (Scheme r) = Some gvk →
  returned (reconcileIngress r d c) = None
  ∧ domains (clusterAfter (reconcileIngress r d c)) = domains c
  ∧ ingresses (clusterAfter (reconcileIngress r d c))
    = match ingresses c !! statsIngressKey d, statsFlag d with
      | None, true => <[statsIngressKey d := canonicalStatsIngress d gvk]> (ingresses c)
      | Some i, false =>
          match metav1.DeletionTimestamp (netwrkingv1.ObjectMeta i) with
          | None => delete (statsIngressKey d) (ingresses c)
          | Some _ => ingresses c
          end
      | _, _ => ingresses c
      end.
Proof.
  intros (_ & Hg & Hc & Hdel & _) [_ Hwi] Hk.
  pose proof (buildDesiredIngress_cases r d) as HB. rewrite Hk in HB.
  destruct (ingresses c !! statsIngressKey d) as [i|] eqn:Hi;
    destruct (statsFlag d) eqn:Hs.
  - by rewrite (reconcileIngress_kept r d c i Hg Hi Hs).
  - destruct (metav1.DeletionTimestamp (netwrkingv1.ObjectMeta i)) as [t|] eqn:Ht.
    + by rewrite (reconcileIngress_terminating r d c i t Hg Hi Hs Ht).
    + assert (IngressKey i = statsIngressKey d) as HK by (by apply Hwi in Hi).
      by rewrite (reconcileIngress_deleted r d c i Hg Hdel Hi HK Hs Ht).
  - by rewrite (reconcileIngress_created r d c _ Hg Hc Hi Hs HB).
  - by rewrite (reconcileIngress_skipped r d c Hg Hi Hs).
Qed.

(** A fault-free pass for a stored Domain whose probes answer. *)
Lemma Reconcile_fault_free (r : DomainReconciler) (req : ctrl.Request) (c : Cluster)
    (d : Domain) (gvk : runtime.GroupVersionKind) :
  noFaults (Client r) →
  wf_cluster c →
  runtime.DomainKind (Scheme r) = Some gvk →
  domains c !! ctrl.ReqNamespacedName req = Some d →
  ProbesOk r d →
  (returned (Reconcile r req c)).2 = None
  ∧ domains (clusterAfter (Reconcile r req c))
    = <[ctrl.ReqNamespacedName req := probed r d]> (domains c)
  ∧ ingresses (clusterAfter (Reconcile r req c))
    = ingresses (clusterAfter (reconcileIngress r (probed r d) c)).
Proof.
  intros Hnf Hw Hk Hd HP.
  pose proof Hnf as (Hgd & _ & _ & _ & Hu).
  assert (DomainKey d = ctrl.ReqNamespacedName req) as HK
    by (destruct Hw as [Hwd _]; by apply Hwd in Hd).
  rewrite (Reconcile_probed r req c d (fetch_stored r req c d Hgd Hd) HP).
  destruct (reconcileIngress_fault_free r (probed r d) c gvk Hnf Hw Hk) as (He & HD & _).
  destruct (reconcileIngress r (probed r d) c) as [[err c1] l1].
  unfold returned, clusterAfter in *. cbn [fst snd] in *. subst err.
  assert (domains c1 !! DomainKey (probed r d) = Some d) as Hs
    by (change (DomainKey (probed r d)) with (DomainKey d); by rewrite HD, HK).
  rewrite (StatusUpdate_stored (Client r) (probed r d) d c1 Hu Hs).
  cbn [fst snd domains ingresses].
  change (DomainKey (probed r d)) with (DomainKey d). rewrite HD, HK. done.
Qed.

(** X4. Over a client that fails nothing and a scheme that knows the Domain
    kind, a pass for a stored Domain whose three probes answer without error
    returns no error, whatever the flags are and whether or not a stats
    Ingress is stored: the controller adds no failure of its own. *)
Theorem Reconcile_fault_free_succeeds :
  ∀ (r : DomainReconciler) (req : ctrl.Request) (c : Cluster) (d : Domain),
    noFaults (Client r) →
    wf_cluster c →
    is_Some (runtime.DomainKind (Scheme r)) →
    domains c !! ctrl.ReqNamespacedName req = Some d →
    ProbesOk r d →
    (returned (Reconcile r req c)).2 = None
    ∧ domains (clusterAfter (Reconcile r req c)) !! ctrl.ReqNamespacedName req
      = Some (setStatus d {| corev1alpha1.DNS := probedStatus r d |}).
Proof.
  intros r req c d Hnf Hw [gvk Hk] Hd HP.
  destruct (Reconcile_fault_free r req c d gvk Hnf Hw Hk Hd HP) as (He & HD & _).
  split; [done|]. rewrite HD. apply lookup_insert_eq.
Qed.

Lemma StableProbes_setStatus (r : DomainReconciler) (d : Domain) (s : corev1alpha1.DomainStatus) :
  StableProbes (DNSChecker r) →
  (ProbesOk r d → ProbesOk r (setStatus d s))
  ∧ probedStatus r (setStatus d s) = probedStatus r d.
Proof.
  intros Hst. destruct (Hst d s) as (H1 & H2 & H3). split.
  - unfold ProbesOk. by rewrite H1, H2, H3.
  - unfold probedStatus. by rewrite H1, H2, H3.
Qed.

(** ** Create, delete, create again *)

(** X12. Over a client that fails nothing, for a stored Domain without a
    stats Ingress: a pass whose stats-DNS probe answers true creates the
    canonical stats Ingress; a next pass whose probe answers false deletes
    it, leaving the Ingresses exactly as they were before the first pass; a
    third pass whose probe answers true again creates the same Ingress as the
    first did.  All three passes return no error. *)
Theorem Reconcile_create_delete_create :
  ∀ (r1 r2 : DomainReconciler) (req : ctrl.Request) (c : Cluster) (d : Domain)
    (gvk : runtime.GroupVersionKind),
    Client r1 = Client r2 →
    Scheme r1 = Scheme r2 →
    noFaults (Client r1) →
    runtime.DomainKind (Scheme r1) = Some gvk →
    wf_cluster c →
    domains c !! ctrl.ReqNamespacedName req = Some d →
    ingresses c !! statsIngressKey d = None →
    StableProbes (DNSChecker r1) → StableProbes (DNSChecker r2) →
    ProbesOk r1 d → ProbesOk r2 d →
    (checker.CheckDomainStatsDNS (DNSChecker r1) d).1 = true →
    (checker.CheckDomainStatsDNS (DNSChecker r2) d).1 = false →
    let p1 := Reconcile r1 req c in
    let p2 := Reconcile r2 req (clusterAfter p1) in
    let p3 := Reconcile r1 req (clusterAfter p2) in
    ingresses (clusterAfter p1)
      = <[statsIngressKey d := canonicalStatsIngress d gvk]> (ingresses c)
    ∧ ingresses (clusterAfter p2) = ingresses c
    ∧ ingresses (clusterAfter p3) = ingresses (clusterAfter p1)
    ∧ (returned p1).2 = None ∧ (returned p2).2 = None ∧ (returned p3).2 = None.
Proof.
  intros r1 r2 req c d gvk Hcl Hsc Hnf Hk Hw Hd Hi Hst1 Hst2 HP1 HP2 Ht Hf p1 p2 p3.
  subst p1 p2 p3.
  assert (noFaults (Client r2)) as Hnf2 by (by rewrite <- Hcl).
  assert (runtime.DomainKind (Scheme r2) = Some gvk) as Hk2 by (by rewrite <- Hsc).
  (* first pass *)
  destruct (Reconcile_fault_free r1 req c d gvk Hnf Hw Hk Hd HP1) as (He1 & HD1 & HI1).
  destruct (reconcileIngress_fault_free r1 (probed r1 d) c gvk Hnf Hw Hk) as (_ & _ & HI1').
  rewrite HI1' in HI1. clear HI1'.
  change (statsIngressKey (probed r1 d)) with (statsIngressKey d) in HI1.
  rewrite Hi, statsFlag_probed, Ht in HI1.
  change (canonicalStatsIngress (probed r1 d) gvk) with (canonicalStatsIngress d gvk) in HI1.
  pose proof (Reconcile_wf r1 req c Hw) as Hw1.
  set (c1 := clusterAfter (Reconcile r1 req c)) in *.
  (* second pass *)
  assert (domains c1 !! ctrl.ReqNamespacedName req = Some (probed r1 d)) as Hd1
    by (rewrite HD1; apply lookup_insert_eq).
  destruct (StableProbes_setStatus r2 d {| corev1alpha1.DNS := probedStatus r1 d |} Hst2)
    as [HP2' Hps2]. specialize (HP2' HP2). fold (probed r1 d) in HP2', Hps2.
  destruct (Reconcile_fault_free r2 req c1 (probed r1 d) gvk Hnf2 Hw1 Hk2 Hd1 HP2')
    as (He2 & HD2 & HI2).
  destruct (reconcileIngress_fault_free r2 (probed r2 (probed r1 d)) c1 gvk Hnf2 Hw1 Hk2)
    as (_ & _ & HI2').
  rewrite HI2' in HI2. clear HI2'.
  change (statsIngressKey (probed r2 (probed r1 d))) with (statsIngressKey d) in HI2.
  assert (statsFlag (probed r2 (probed r1 d)) = false) as Hf2.
  { rewrite statsFlag_probed.
    destruct (Hst2 d {| corev1alpha1.DNS := probedStatus r1 d |}) as (_ & Hx & _).
    fold (probed r1 d) in Hx. by rewrite Hx. }
  rewrite HI1, lookup_insert_eq, Hf2 in HI2. cbn [canonicalStatsIngress
    netwrkingv1.ObjectMeta metav1.DeletionTimestamp] in HI2.
  rewrite (delete_insert_id _ _ _ Hi) in HI2.
  pose proof (Reconcile_wf r2 req c1 Hw1) as Hw2.
  set (c2 := clusterAfter (Reconcile r2 req c1)) in *.
  (* third pass *)
  set (d2 := probed r2 (probed r1 d)) in *.
  assert (domains c2 !! ctrl.ReqNamespacedName req = Some d2) as Hd2
    by (rewrite HD2; apply lookup_insert_eq).
  destruct (StableProbes_setStatus r1 d {| corev1alpha1.DNS := probedStatus r2 (probed r1 d) |}
              Hst1) as [HP3 Hps3]. specialize (HP3 HP1).
  change (setStatus d {| corev1alpha1.DNS := probedStatus r2 (probed r1 d) |}) with d2
    in HP3, Hps3.
  destruct (Reconcile_fault_free r1 req c2 d2 gvk Hnf Hw2 Hk Hd2 HP3) as (He3 & HD3 & HI3).
  destruct (reconcileIngress_fault_free r1 (probed r1 d2) c2 gvk Hnf Hw2 Hk) as (_ & _ & HI3').
  rewrite HI3' in HI3. clear HI3'.
  change (statsIngressKey (probed r1 d2)) with (statsIngressKey d) in HI3.
  assert (statsFlag (probed r1 d2) = true) as Ht3.
  { rewrite statsFlag_probed.
    destruct (Hst1 d {| corev1alpha1.DNS := probedStatus r2 (probed r1 d) |}) as (_ & Hx & _).
    change (setStatus d {| corev1alpha1.DNS := probedStatus r2 (probed r1 d) |}) with d2 in Hx.
    by rewrite Hx. }
  rewrite HI2, Hi, Ht3 in HI3.
  change (canonicalStatsIngress (probed r1 d2) gvk) with (canonicalStatsIngress d gvk) in HI3.
  repeat split; try assumption. by rewrite HI3, HI1.
Qed.

(** ** The further properties on the scenario *)

Lemma noFaults_plainClient : noFaults Scenario.plainClient.
Proof. by repeat split. Qed.

Lemma statsIngressKey_inj_witness :
  DomainKey Scenario.acme
  = DomainKey (setStatus Scenario.acme {| corev1alpha1.DNS := zeroDNSStatus |}).
Proof. apply (statsIngressKey_inj Scenario.acme). reflexivity. Defined.

Lemma Reconcile_frame_witness :
  domains
    (clusterAfter
       (Reconcile (Scenario.reconciler Scenario.plainClient (Scenario.answers true true true))
          Scenario.req Scenario.busy))
  !! ("default", "other")
  = domains Scenario.busy !! ("default", "other").
Proof.
  apply (proj2 (Reconcile_frame
                  (Scenario.reconciler Scenario.plainClient (Scenario.answers true true true))
                  Scenario.req Scenario.busy Scenario.acme wf_busy eq_refl)).
  discriminate.
Defined.

Lemma Reconcile_create_error_returned_witness :
  Reconcile (Scenario.reconciler Scenario.createRacesClient (Scenario.answers true true true))
    Scenario.req Scenario.fresh
  = ((ctrl.zeroResult, Some (errors.NewAlreadyExists "ingresses" "acme-stats")), Scenario.fresh,
     [CallGetDomain ("default", "acme");
      CallCheckDomainDKim Scenario.acme; CallCheckDomainStatsDNS Scenario.acme;
      CallCheckDomainSPF Scenario.acme;
      CallGetIngress ("default", "acme-stats"); CallCreate Scenario.acmeStats]).
Proof.
  apply (Reconcile_create_error_returned
           (Scenario.reconciler Scenario.createRacesClient (Scenario.answers true true true))
           Scenario.req Scenario.fresh Scenario.acme zeroIngress Scenario.acmeStats
           (errors.NewNotFound "ingresses" "acme-stats")
           (errors.NewAlreadyExists "ingresses" "acme-stats"));
    first [reflexivity | by repeat split].
Defined.

Lemma Reconcile_unregistered_kind_witness :
  Reconcile (Scenario.unregistered Scenario.plainClient (Scenario.answers true true true))
    Scenario.req Scenario.fresh
  = ((ctrl.zeroResult, Some ctrl.errNoKind), Scenario.fresh,
     [CallGetDomain ("default", "acme");
      CallCheckDomainDKim Scenario.acme; CallCheckDomainStatsDNS Scenario.acme;
      CallCheckDomainSPF Scenario.acme;
      CallGetIngress ("default", "acme-stats")]).
Proof.
  apply (Reconcile_unregistered_kind
           (Scenario.unregistered Scenario.plainClient (Scenario.answers true true true))
           Scenario.req Scenario.fresh Scenario.acme zeroIngress
           (errors.NewNotFound "ingresses" "acme-stats"));
    first [reflexivity | by repeat split].
Defined.

Lemma Reconcile_lookup_error_returned_witness :
  Reconcile (Scenario.reconciler Scenario.lookupFailsClient (Scenario.answers true true true))
    Scenario.req Scenario.fresh
  = ((ctrl.zeroResult, Some Scenario.timeout), Scenario.fresh,
     [CallGetDomain ("default", "acme");
      CallCheckDomainDKim Scenario.acme; CallCheckDomainStatsDNS Scenario.acme;
      CallCheckDomainSPF Scenario.acme;
      CallGetIngress ("default", "acme-stats")]).
Proof.
  apply (Reconcile_lookup_error_returned
           (Scenario.reconciler Scenario.lookupFailsClient (Scenario.answers true true true))
           Scenario.req Scenario.fresh Scenario.acme zeroIngress Scenario.timeout);
    first [reflexivity | by repeat split].
Defined.

Lemma Reconcile_update_error_returned_witness :
  domains
    (clusterAfter
       (Reconcile (Scenario.reconciler Scenario.conflictClient (Scenario.answers true true true))
          Scenario.req Scenario.fresh))
  = domains Scenario.fresh.
Proof.
  apply (proj2 (Reconcile_update_error_returned
                  (Scenario.reconciler Scenario.conflictClient (Scenario.answers true true true))
                  Scenario.req Scenario.fresh Scenario.acme Scenario.conflict
                  eq_refl (conj eq_refl (conj eq_refl eq_refl)) eq_refl eq_refl)).
Defined.

Lemma Reconcile_mutation_discipline_witness :
  List.filter isIngressMutation
    (callsOf
       (Reconcile (Scenario.reconciler Scenario.plainClient (Scenario.answers true true true))
          Scenario.req Scenario.fresh))
  = [CallCreate Scenario.acmeStats].
Proof.
  destruct (Reconcile_mutation_discipline
              (Scenario.reconciler Scenario.plainClient (Scenario.answers true true true))
              Scenario.req Scenario.fresh (CallCreate Scenario.acmeStats))
    as (_ & _ & H & _).
  - vm_compute. do 5 right. left. reflexivity.
  - reflexivity.
  - exact H.
Defined.

Lemma Reconcile_success_interval_witness :
  (returned
     (Reconcile (Scenario.reconciler Scenario.plainClient (Scenario.answers true true true))
        Scenario.req Scenario.fresh)).1
  = {| ctrl.Requeue := false; ctrl.RequeueAfter := 3600000000000 |}.
Proof.
  apply (Reconcile_success_interval
           (Scenario.reconciler Scenario.plainClient (Scenario.answers true true true))
           Scenario.req Scenario.fresh Scenario.acme eq_refl eq_refl).
Defined.

Lemma Reconcile_fault_free_succeeds_witness :
  (returned
     (Reconcile (Scenario.reconciler Scenario.plainClient (Scenario.answers false false false))
        Scenario.req (Scenario.withIngress Scenario.acmeStats))).2
  = None.
Proof.
  apply (Reconcile_fault_free_succeeds
           (Scenario.reconciler Scenario.plainClient (Scenario.answers false false false))
           Scenario.req (Scenario.withIngress Scenario.acmeStats) Scenario.acme
           noFaults_plainClient (wf_withIngress Scenario.acmeStats eq_refl)
           (ex_intro _ _ eq_refl) eq_refl (conj eq_refl (conj eq_refl eq_refl))).
Defined.

Lemma Reconcile_create_delete_create_witness :
  ingresses
    (clusterAfter
       (Reconcile (Scenario.reconciler Scenario.plainClient (Scenario.answers true false true))
          Scenario.req
          (clusterAfter
             (Reconcile (Scenario.reconciler Scenario.plainClient (Scenario.answers true true true))
                Scenario.req Scenario.fresh))))
  = ingresses Scenario.fresh.
Proof.
  destruct (Reconcile_create_delete_create
              (Scenario.reconciler Scenario.plainClient (Scenario.answers true true true))
              (Scenario.reconciler Scenario.plainClient (Scenario.answers true false true))
              Scenario.req Scenario.fresh Scenario.acme
              {| runtime.Group := "core.k8s.kannon.email"; runtime.Version := "v1alpha1";
                 runtime.GVKind := "Domain" |}
              eq_refl eq_refl noFaults_plainClient eq_refl wf_fresh eq_refl eq_refl
              (stable_answers true true true) (stable_answers true false true)
              (conj eq_refl (conj eq_refl eq_refl)) (conj eq_refl (conj eq_refl eq_refl))
              eq_refl eq_refl)
    as (_ & H & _).
  exact H.
Defined.
